(** * serve.py: static file server with COOP/COEP headers

    Shallow embedding of [player-wasm/src/main/resources/web/serve.py].

    The script is nineteen lines of glue over CPython's [http.server] and
    [socketserver].  The parts of those two library modules, of the
    [int]/[str] builtins and of the socket layer that the script calls are
    transcribed below, each in a module named after the Python module it
    comes from, so that the script itself ([Handler.end_headers], [PORT],
    [main]) reads line for line like its source. *)

From Stdlib Require Import ZArith List String Ascii Bool Lia.
From Stdlib Require Import DecimalString DecimalZ.
Import ListNotations.

Local Open Scope Z_scope.
Local Open Scope string_scope.

(** ** Exceptions and fallible computations *)

(** The exception classes that can escape from the calls the script makes. *)
Inductive exn : Type :=
| ValueError        (* int() on a malformed literal *)
| OverflowError     (* bind(): port must be 0-65535 *)
| OSError           (* bind()/listen() refused by the operating system *)
| AttributeError    (* attribute read on an object that lacks it *)
| KeyboardInterrupt (* SIGINT delivered to the process *).

Inductive result (A : Type) : Type :=
| Ok (a : A)
| Raise (e : exn).
Arguments Ok {A} a.
Arguments Raise {A} e.

Definition bind {A B : Type} (r : result A) (k : A -> result B) : result B :=
  match r with
  | Ok a => k a
  | Raise e => Raise e
  end.

Notation "x <- r ;; k" := (bind r (fun x => k))
  (at level 61, r at next level, right associativity).

(** ** Builtins: [int(str)] and [str(int)] *)

Module builtins.

(** A string is a Python [str] whose code points are all below 256, one
    character per code point (U+0000 to U+00FF).  Text with higher code
    points, among it the decimal digits of other scripts, has no
    counterpart here. *)

(** The blanks [int()] skips before and after the literal: tab, line feed,
    vertical tab, form feed, carriage return and space ([Py_ISSPACE]), and
    the two blanks above U+007F in this range, U+0085 and U+00A0, which
    [_PyUnicode_TransformDecimalAndSpaceToASCII] turns into spaces first.
    (Every other code point from U+007F up is turned into ['?'] there, and
    is rejected like any stray character.) *)
Definition is_space (c : ascii) : bool :=
  let n := Z.of_N (N_of_ascii c) in
  ((9 <=? n) && (n <=? 13) || (n =? 32) || (n =? 133) || (n =? 160))%Z.

(** [_PyLong_DigitValue[c] < 10]: the value of an ASCII decimal digit. *)
Definition digit_value (c : ascii) : option Z :=
  let n := Z.of_N (N_of_ascii c) in
  if ((48 <=? n) && (n <=? 57))%Z then Some (n - 48) else None.

Definition is_underscore (c : ascii) : bool := Ascii.eqb c "_".

Fixpoint skip_spaces (s : string) : string :=
  match s with
  | String c s' => if is_space c then skip_spaces s' else s
  | EmptyString => s
  end.

(** The digit loop of [long_from_string_base] in base ten: digits may be
    separated by single underscores; [prev_us] records that the previous
    character was an underscore.  Returns the accumulated value, the number
    of digits consumed and the unread rest. *)
Fixpoint scan_digits (prev_us : bool) (acc : Z) (ndigits : nat) (s : string)
  : option (Z * nat * string) :=
  match s with
  | String c s' =>
      if is_underscore c then
        if prev_us then None else scan_digits true acc ndigits s'
      else
        match digit_value c with
        | Some d => scan_digits false (10 * acc + d) (S ndigits) s'
        | None => if prev_us then None else Some (acc, ndigits, s)
        end
  | EmptyString => if prev_us then None else Some (acc, ndigits, s)
  end.

(** [sys.get_int_max_str_digits()], at its default: a literal with more
    digits (underscores not counted, leading zeros counted) is refused. *)
Definition int_max_str_digits : Z := 4300.

(** The literal grammar of [int(s)] in base ten: optional blanks,
    optional sign, digits (no leading underscore, at least one digit, at
    most [int_max_str_digits]), optional blanks, end of string. *)
Definition int_literal (s : string) : option Z :=
  let s1 := skip_spaces s in
  let '(sign, s2) :=
    match s1 with
    | String "+" r => (1, r)
    | String "-" r => (-1, r)
    | _ => (1, s1)
    end in
  match s2 with
  | String "_" _ => None
  | _ =>
            match scan_digits false 0 0 s2 with
      | Some (v, S m, rest) =>
          if (int_max_str_digits <? Z.of_nat (S m))%Z then None
          else
            match skip_spaces rest with
            | EmptyString => Some (sign * v)
            | _ => None
            end
      | _ => None
      end
  end.

(** [int(s)] for a [str] argument: the value of the literal, or
    [ValueError: invalid literal for int() with base 10]. *)
Definition int (s : string) : result Z :=
  match int_literal s with
  | Some n => Ok n
  | None => Raise ValueError
  end.

(** [str(n)] for an [int], also what [f'{n}'] and ["%d" % n] produce:
    decimal digits without leading zeros, ["-"] in front of a negative. *)
Definition str (n : Z) : string := NilZero.string_of_int (Z.to_int n).

(** [len(s)] of a list. *)
Definition len {A : Type} (l : list A) : Z := Z.of_nat (List.length l).

(** [str.lower()]: the capital letters below U+0100 are A to Z and U+00C0
    to U+00DE without the multiplication sign U+00D7. *)
Definition lower_char (c : ascii) : ascii :=
  let n := nat_of_ascii c in
  if (Nat.leb 65 n && Nat.leb n 90
      || Nat.leb 192 n && Nat.leb n 222 && negb (Nat.eqb n 215))%bool
  then ascii_of_nat (n + 32) else c.

Fixpoint lower (s : string) : string :=
  match s with
  | String c s' => String (lower_char c) (lower s')
  | EmptyString => EmptyString
  end.

End builtins.

Definition CR : ascii := "013"%char.
Definition LF : ascii := "010"%char.
Definition CRLF : string := String CR (String LF EmptyString).

(** [b"".join(chunks)] *)
Definition join (chunks : list string) : string := String.concat "" chunks.

(** ** [http.server.BaseHTTPRequestHandler] *)

Module BaseHTTPRequestHandler.

(** One parsed request, as [parse_request] leaves it on the handler. *)
Record request : Type := {
  command : string;
  path : string;
  version : string;   (* "HTTP/0.9" for a two-word request line *)
}.

(** The attributes of a handler instance that the header methods read or
    write.  [_headers_buffer] is created on first use ([hasattr] test in
    the source), hence the [option].  [wfile] is the unbuffered socket
    writer ([wbufsize = 0]): the chunks passed to [wfile.write], oldest
    first, go on the wire in that order. *)
Record handler : Type := {
  request_version : string;
  protocol_version : string;
  _headers_buffer : option (list string);
  wfile : list string;
  close_connection : bool;
}.

(** A handler class, as far as subclasses differ here: the method that
    [self.end_headers()] dispatches to. *)
Record handler_class : Type := {
  end_headers_of : handler -> result handler;
}.

Definition wfile_write (self : handler) (data : string) : handler :=
  {| request_version := request_version self;
     protocol_version := protocol_version self;
     _headers_buffer := _headers_buffer self;
     wfile := (wfile self ++ [data])%list;
     close_connection := close_connection self |}.

Definition set_headers_buffer (self : handler) (buf : option (list string))
  : handler :=
  {| request_version := request_version self;
     protocol_version := protocol_version self;
     _headers_buffer := buf;
     wfile := wfile self;
     close_connection := close_connection self |}.

Definition set_close_connection (self : handler) (b : bool) : handler :=
  {| request_version := request_version self;
     protocol_version := protocol_version self;
     _headers_buffer := _headers_buffer self;
     wfile := wfile self;
     close_connection := b |}.

(** [self._headers_buffer.append(line)] after the [hasattr] guard. *)
Definition buffer_append (self : handler) (line : string) : handler :=
  match _headers_buffer self with
  | Some buf => set_headers_buffer self (Some (buf ++ [line])%list)
  | None => set_headers_buffer self (Some [line])
  end.

Definition is_http09 (self : handler) : bool :=
  String.eqb (request_version self) "HTTP/0.9".

(** The bytes a connection has received so far. *)
Definition wire (self : handler) : string := join (wfile self).

Section Platform.

(** Installation-dependent constants of the library: the reason-phrase
    table [responses] and the [Server] header value. *)
Variable responses : Z -> option string.
Variable version_string : string.

Definition send_response_only (self : handler) (code : Z)
    (message : option string) : handler :=
  if negb (is_http09 self) then
    let message :=
      match message with
      | Some m => m
      | None => match responses code with Some m => m | None => "" end
      end in
    buffer_append self
      (protocol_version self ++ " " ++ builtins.str code ++ " "
         ++ message ++ CRLF)
  else self.

Definition send_header (self : handler) (keyword value : string) : handler :=
  let self :=
    if negb (is_http09 self) then
      buffer_append self (keyword ++ ": " ++ value ++ CRLF)
    else self in
  if String.eqb (builtins.lower keyword) "connection" then
    if String.eqb (builtins.lower value) "close" then
      set_close_connection self true
    else if String.eqb (builtins.lower value) "keep-alive" then
      set_close_connection self false
    else self
  else self.

(** [send_response]: status line, then the [Server] and [Date] headers;
    [date_time_string] is the clock reading at the time of the call.
    (The access-log line goes to standard error and is left out.) *)
Definition send_response (self : handler) (date_time_string : string)
    (code : Z) (message : option string) : handler :=
  let self := send_response_only self code message in
  let self := send_header self "Server" version_string in
  send_header self "Date" date_time_string.

End Platform.

Definition flush_headers (self : handler) : handler :=
  match _headers_buffer self with
  | Some buf => set_headers_buffer (wfile_write self (join buf)) (Some [])
  | None => self
  end.

(** [end_headers]: append the blank line to the buffer and flush the
    whole buffer, status line included, in one write.  The source reads
    [self._headers_buffer] without a [hasattr] guard here. *)
Definition end_headers (self : handler) : result handler :=
  if negb (is_http09 self) then
    match _headers_buffer self with
    | Some buf =>
        Ok (flush_headers (set_headers_buffer self (Some (buf ++ [CRLF])%list)))
    | None => Raise AttributeError
    end
  else Ok self.

End BaseHTTPRequestHandler.

(** ** [http.server.SimpleHTTPRequestHandler] *)

Module SimpleHTTPRequestHandler.
Import BaseHTTPRequestHandler.

(** The serving root: path and contents of each file. *)
Definition file_system : Type := list (string * string).

(** The tables of the [mimetypes] module, as [mimetypes.guess_type(path)[0]]
    reads them: the type guessed for a path, if any. *)
Definition mime_db : Type := string -> option string.

(** What a request sees of the outside: the files under the serving root,
    the clock, the MIME tables ([mime_types]: what [mimetypes.init()] loads
    from the system's MIME files at this moment) and standard error
    ([stderr_error]: [None] when [sys.stderr] can be written, [Some e] when
    every write to it raises [e], as on a closed pipe). *)
Record world : Type := {
  files : file_system;
  date_time_string : string;
  mime_types : mime_db;
  stderr_error : option exn;
}.

(** What the static-file logic answers: [send_head] for a file, a directory
    listing, a redirect or a 304, [send_error] otherwise.  [guessed_ctype]
    says that the first header is [Content-type], with the type guessed for
    the file ([send_head], status 200). *)
Record answer : Type := {
  code : Z;
  message : option string;
  guessed_ctype : bool;
  headers : list (string * string);
  body : string;
}.

(** What the static-file logic does with a request: [guess] is the path it
    hands to [mimetypes.guess_type], if it gets that far (a file whose
    extension is not in [extensions_map]); [outcome] is the answer it
    decides on, or the exception it raises before any header is sent
    ([send_head] catches [OSError] only: [open] on a path with a NUL byte
    raises [ValueError]). *)
Record reply : Type := {
  guess : option string;
  outcome : result answer;
}.

(** The fresh instance the server constructs for each connection. *)
Definition setup (req : request) : handler :=
  {| request_version := version req;
     protocol_version := "HTTP/1.0";
     _headers_buffer := None;
     wfile := [];
     close_connection := true |}.

(** [end_headers] is inherited unchanged. *)
Definition class : handler_class := {| end_headers_of := end_headers |}.

(** [for keyword, value in headers: self.send_header(keyword, value)] *)
Definition send_headers (self : handler) (hs : list (string * string))
  : handler :=
  fold_left (fun h kv => send_header h (fst kv) (snd kv)) hs self.

(** [guess_type]: the guess of [mimetypes] when it has one that is not
    empty, [application/octet-stream] otherwise. *)
Definition guess_type (db : mime_db) (p : string) : string :=
  match db p with
  | Some (String c t) => String c t
  | _ => "application/octet-stream"
  end.

(** The [Content-type] header of a file, from the tables in effect. *)
Definition content_type (db : mime_db) (r : reply) (a : answer)
  : list (string * string) :=
  match guess r with
  | Some p =>
      if guessed_ctype a then [("Content-type", guess_type db p)] else []
  | None => []
  end.

(** [log_message]: one line written to [sys.stderr]. *)
Definition log_message (w : world) : result unit :=
  match stderr_error w with
  | None => Ok tt
  | Some e => Raise e
  end.

Section Platform.

Variable responses : Z -> option string.
Variable version_string : string.
(** Path resolution, index lookup, error pages: library behaviour that the
    script does not customise. *)
Variable static_reply : file_system -> request -> reply.

(** One parsed request served by a handler of class [cls], in the world as
    the process sees it ([mime_types w] are the tables in effect).  Every
    reply path of the library ([send_head] and [send_error] alike) makes
    the same calls: [send_response], which first writes the access-log
    line, [send_header] for each header, [self.end_headers()], then the
    body, if any, copied to [wfile].  Nothing reaches the socket before
    [self.end_headers()], so an exception raised earlier leaves the client
    without a byte.  The client stays connected and reads what is written:
    a write to [wfile] does not fail.  With the default [protocol_version]
    a connection carries one request. *)
Definition handle_one_request (cls : handler_class) (w : world)
    (req : request) : result handler :=
  let self := setup req in
  let r := static_reply (files w) req in
  a <- outcome r ;;
  logged <- log_message w ;;
  let self :=
    send_response responses version_string self (date_time_string w)
      (code a) (message a) in
  let self :=
    send_headers self (content_type (mime_types w) r a ++ headers a)%list in
  self <- end_headers_of cls self ;;
  Ok (match body a with
      | EmptyString => self
      | b => wfile_write self b
      end).

End Platform.

End SimpleHTTPRequestHandler.

(** ** serve.py: [class Handler(http.server.SimpleHTTPRequestHandler)] *)

Module Handler.
Import BaseHTTPRequestHandler.

Definition COOP : string := "Cross-Origin-Opener-Policy: same-origin".
Definition COEP : string := "Cross-Origin-Embedder-Policy: require-corp".

Definition end_headers (self : handler) : result handler :=
  let self := wfile_write self (COOP ++ CRLF) in
  let self := wfile_write self (COEP ++ CRLF) in
  BaseHTTPRequestHandler.end_headers self.

Definition class : handler_class := {| end_headers_of := end_headers |}.

End Handler.

(** ** The socket layer *)

Module socket.

(** What the operating system answers to a bind request: which ports it
    refuses (in use, or privileged without permission) and which port it
    hands out when asked for port 0 (none when it has none left). *)
Record os : Type := {
  port_unavailable : Z -> bool;
  ephemeral_port : option Z;
}.

Inductive ip : Type :=
| INADDR_ANY              (* host '' : the IPv4 wildcard, 0.0.0.0 *)
| Addr (a : string).      (* a dotted IPv4 address *)

Definition host_address (host : string) : ip :=
  match host with
  | EmptyString => INADDR_ANY
  | _ => Addr host
  end.

(** A bound, listening socket. *)
Record listener : Type := {
  laddr : ip;
  lport : Z;
}.

(** [sock.bind((host, port))]: the port is range-checked before the
    system call; port 0 asks the system to choose. *)
Definition bind (o : os) (address : string * Z) : result listener :=
  let '(host, port) := address in
  if ((port <? 0) || (65535 <? port))%Z then Raise OverflowError
  else if (port =? 0)%Z then
    match ephemeral_port o with
    | Some p => Ok {| laddr := host_address host; lport := p |}
    | None => Raise OSError
    end
  else if port_unavailable o port then Raise OSError
  else Ok {| laddr := host_address host; lport := port |}.

Definition getsockname (l : listener) : string * Z :=
  (match laddr l with INADDR_ANY => "0.0.0.0" | Addr a => a end, lport l).

(** Where a connection is addressed to: one of the host's own addresses,
    of either family. *)
Inductive destination : Type :=
| IPv4 (a : string)
| IPv6 (a : string).

(** Whether a connection addressed to [dst] reaches the listener.  The
    socket is of family [AF_INET] ([TCPServer.address_family]): it takes
    IPv4 destinations, all of them when bound to the wildcard address, and
    no IPv6 destination. *)
Definition accepts (l : listener) (dst : destination) : bool :=
  match dst with
  | IPv4 a =>
      match laddr l with
      | INADDR_ANY => true
      | Addr b => String.eqb b a
      end
  | IPv6 _ => false
  end.

End socket.

(** ** [socketserver.TCPServer] *)

Module socketserver.
Import BaseHTTPRequestHandler SimpleHTTPRequestHandler.

Record TCPServer : Type := {
  server_address : string * Z;
  sock : socket.listener;
  RequestHandlerClass : handler_class;
  shutdown_request_flag : bool;   (* self.__shutdown_request *)
}.

(** [TCPServer(server_address, RequestHandlerClass)]: bind and listen; an
    exception from either closes the socket and is re-raised. *)
Definition init (o : socket.os) (address : string * Z)
    (cls : handler_class) : result TCPServer :=
  l <- socket.bind o address ;;
  Ok {| server_address := socket.getsockname l;
        sock := l;
        RequestHandlerClass := cls;
        shutdown_request_flag := false |}.

(** What one [selector.select(poll_interval)] of the serving loop meets. *)
Inductive arrival : Type :=
| Idle                                      (* nothing ready *)
| AcceptFailed                              (* get_request raised OSError *)
| NoRequest                                 (* a client that sends nothing *)
| Connection (w : world) (req : request)    (* a client and its request *)
| Interrupted (w : world) (req : request)   (* SIGINT while it is handled *)
| Signal.                                   (* SIGINT while polling *)

(** Where the call to [serve_forever] stands.  [db] is the one piece of
    state of the process that outlives a request: [mimetypes._db], empty
    until the first request that asks for a guess and filled once, then,
    from the system's MIME files.  [sent] is the reply bytes of every
    connection served to its end, oldest first. *)
Inductive loop : Type :=
| Polling (self : TCPServer) (db : option mime_db) (sent : list string)
| Returned (sent : list string)
| Propagated (e : exn) (sent : list string).

(** [isinstance(e, Exception)]: [KeyboardInterrupt] derives from
    [BaseException] only. *)
Definition is_Exception (e : exn) : bool :=
  match e with
  | KeyboardInterrupt => false
  | _ => true
  end.

(** The world as a request sees it through the process: the MIME tables
    are the loaded ones, once loaded. *)
Definition in_effect (db : option mime_db) (w : world) : world :=
  match db with
  | Some t =>
      {| files := files w;
         date_time_string := date_time_string w;
         mime_types := t;
         stderr_error := stderr_error w |}
  | None => w
  end.

Section Platform.

Variable responses : Z -> option string.
Variable version_string : string.
Variable static_reply : file_system -> request -> reply.

(** [mimetypes._db] after a request: [mimetypes.guess_type] loads the
    tables when they are not loaded yet. *)
Definition loaded (db : option mime_db) (w : world) (req : request)
  : option mime_db :=
  match db with
  | Some _ => db
  | None =>
      match guess (static_reply (files w) req) with
      | Some _ => Some (mime_types w)
      | None => None
      end
  end.

(** [_handle_request_noblock] on a ready connection: a fresh handler
    instance of [RequestHandlerClass] serves it.  An [Exception] from the
    handler is reported by [handle_error], which prints a traceback to
    [sys.stderr]: when that print raises, its exception leaves the method;
    an exception that is no [Exception] leaves it at once.  No attribute of
    the server is assigned. *)
Definition _handle_request_noblock (self : TCPServer) (db : option mime_db)
    (w : world) (req : request)
  : result (TCPServer * option mime_db * list string) :=
  match handle_one_request responses version_string static_reply
          (RequestHandlerClass self) (in_effect db w) req with
  | Ok h => Ok (self, loaded db w req, [wire h])
  | Raise e =>
      if is_Exception e then
        match stderr_error w with
        | None => Ok (self, loaded db w req, [])
        | Some e' => Raise e'
        end
      else Raise e
  end.

(** One turn of [while not self.__shutdown_request: ...]. *)
Definition iteration (st : loop) (a : arrival) : loop :=
  match st with
  | Polling self db sent =>
      if shutdown_request_flag self then Returned sent
      else
        match a with
        | Signal => Propagated KeyboardInterrupt sent
        | _ =>
            (* bpo-35017: shutdown() called during select() *)
            if shutdown_request_flag self then Returned sent
            else
              match a with
              | Connection w req =>
                  match _handle_request_noblock self db w req with
                  | Ok (self, db, out) => Polling self db (sent ++ out)%list
                  | Raise e => Propagated e sent
                  end
              | Interrupted _ _ =>
                  (* except: self.shutdown_request(request); raise *)
                  Propagated KeyboardInterrupt sent
              | _ => Polling self db sent
              end
        end
  | _ => st
  end.

Definition serve_forever (self : TCPServer) (arrivals : list arrival)
  : loop :=
  fold_left iteration arrivals (Polling self None []).

End Platform.

End socketserver.

(** ** serve.py: the script body *)

Module serve.
Import BaseHTTPRequestHandler SimpleHTTPRequestHandler socketserver.

(** [PORT = int(sys.argv[1]) if len(sys.argv) > 1 else 8080] *)
Definition PORT (argv : list string) : result Z :=
  if (1 <? builtins.len argv)%Z then builtins.int (nth 1 argv "")
  else Ok 8080.

(** [print(line)] *)
Definition print (stdout : string) (line : string) : string :=
  stdout ++ line ++ String LF EmptyString.

(** How far the script got before [httpd.serve_forever()]: the text on
    standard output, and either the server object on which [serve_forever]
    is entered or the exception that ended the process. *)
Record startup : Type := {
  stdout : string;
  httpd : result TCPServer;
}.

(** [with socketserver.TCPServer(('', PORT), Handler) as httpd:
        print(f'Serving on http://localhost:{PORT}')]
    ([run] below goes on with [httpd.serve_forever()]). *)
Definition main (o : socket.os) (argv : list string) : startup :=
  match PORT argv with
  | Raise e => {| stdout := ""; httpd := Raise e |}
  | Ok port =>
      match socketserver.init o ("", port) Handler.class with
      | Raise e => {| stdout := ""; httpd := Raise e |}
      | Ok httpd =>
          {| stdout :=
               print "" ("Serving on http://localhost:" ++ builtins.str port);
             httpd := Ok httpd |}
      end
  end.

(** The process: ended during start-up by an uncaught exception (traceback
    on standard error, exit status 1), or inside [httpd.serve_forever()]. *)
Inductive process : Type :=
| StartupFailed (e : exn)
| InServeForever (l : loop).

Section Platform.

Variable responses : Z -> option string.
Variable version_string : string.
Variable static_reply : file_system -> request -> reply.

(** The whole process against a sequence of arrivals: start-up, then
    [httpd.serve_forever()]. *)
Definition run (o : socket.os) (argv : list string)
    (arrivals : list arrival) : string * process :=
  let s := main o argv in
  match httpd s with
  | Ok srv =>
      (stdout s,
       InServeForever
         (serve_forever responses version_string static_reply srv arrivals))
  | Raise e => (stdout s, StartupFailed e)
  end.

End Platform.

End serve.

(** ** Vocabulary of the properties *)

Module decimal.

(** Value of a digit sequence read left to right from accumulator [acc],
    as [scan_digits] computes it. *)
Fixpoint uint_fold (acc : Z) (d : Decimal.uint) : Z :=
  match d with
  | Decimal.Nil => acc
  | Decimal.D0 l => uint_fold (10 * acc + 0) l
  | Decimal.D1 l => uint_fold (10 * acc + 1) l
  | Decimal.D2 l => uint_fold (10 * acc + 2) l
  | Decimal.D3 l => uint_fold (10 * acc + 3) l
  | Decimal.D4 l => uint_fold (10 * acc + 4) l
  | Decimal.D5 l => uint_fold (10 * acc + 5) l
  | Decimal.D6 l => uint_fold (10 * acc + 6) l
  | Decimal.D7 l => uint_fold (10 * acc + 7) l
  | Decimal.D8 l => uint_fold (10 * acc + 8) l
  | Decimal.D9 l => uint_fold (10 * acc + 9) l
  end.

(** Occurrences of a character in a string. *)
Fixpoint count_char (c : ascii) (s : string) : nat :=
  match s with
  | String c0 s0 => (if Ascii.eqb c c0 then 1 else 0) + count_char c s0
  | EmptyString => 0
  end.

End decimal.

(** Outside HTTP/0.9, a handler that has sent a header has a buffer. *)
Definition buffered (self : BaseHTTPRequestHandler.handler) : Prop :=
  BaseHTTPRequestHandler.is_http09 self = false ->
  exists buf, BaseHTTPRequestHandler._headers_buffer self = Some buf.

(** How a client reads a response head (RFC 9112): the bytes up to the first
    CRLF are the status line, each following CRLF-terminated line is a header
    field, up to the empty line that ends the head. *)
Module http_message.

Fixpoint split_lines (s : string) : list string :=
  match s with
  | EmptyString => [EmptyString]
  | String "013" (String "010" rest) => EmptyString :: split_lines rest
  | String c s' =>
      match split_lines s' with
      | l :: ls => String c l :: ls
      | [] => [String c EmptyString]
      end
  end.

Fixpoint until_blank (ls : list string) : list string :=
  match ls with
  | [] => []
  | EmptyString :: _ => []
  | l :: r => l :: until_blank r
  end.

Definition status_line (wire : string) : string :=
  hd EmptyString (split_lines wire).

Definition header_fields (wire : string) : list string :=
  until_blank (tl (split_lines wire)).

End http_message.

(** ** A small installation, to evaluate the model on *)

Module fixtures.
Import BaseHTTPRequestHandler SimpleHTTPRequestHandler socketserver.

Definition responses (code : Z) : option string :=
  if (code =? 200)%Z then Some "OK"
  else if (code =? 404)%Z then Some "Not Found"
  else None.

Definition version_string : string := "SimpleHTTP/0.6 Python/3.11.2".

Fixpoint lookup (p : string) (fs : file_system) : option string :=
  match fs with
  | [] => None
  | (q, data) :: fs' => if String.eqb p q then Some data else lookup p fs'
  end.

(** A file is served with its guessed type, a missing one is a 404, and
    the path with an encoded NUL byte makes [open] raise. *)
Definition static_reply (fs : file_system) (req : request) : reply :=
  if String.eqb (path req) "/%00" then
    {| guess := Some (path req); outcome := Raise ValueError |}
  else
    match lookup (path req) fs with
    | Some data =>
        {| guess := Some (path req);
           outcome :=
             Ok {| code := 200; message := None; guessed_ctype := true;
                   headers :=
                     [("Content-Length",
                       builtins.str (Z.of_nat (String.length data)))];
                   body := data |} |}
    | None =>
        {| guess := Some (path req);
           outcome :=
             Ok {| code := 404; message := Some "File not found";
                   guessed_ctype := false;
                   headers := [("Connection", "close");
                               ("Content-Type", "text/html;charset=utf-8");
                               ("Content-Length", "0")];
                   body := EmptyString |} |}
    end.

Definition root : file_system := [("/player.wasm", "wasm")].

(** The system's MIME files before and after they list the wasm type. *)
Definition tables_before : mime_db := fun _ => None.
Definition tables_now : mime_db :=
  fun p =>
    if String.eqb p "/player.wasm" then Some "application/wasm" else None.

Definition noon : world :=
  {| files := root;
     date_time_string := "Tue, 03 Nov 2026 12:00:00 GMT";
     mime_types := tables_now;
     stderr_error := None |}.
Definition later : world :=
  {| files := root;
     date_time_string := "Tue, 03 Nov 2026 12:00:01 GMT";
     mime_types := tables_now;
     stderr_error := None |}.
(** The day before, with the older MIME files. *)
Definition eve : world :=
  {| files := root;
     date_time_string := "Mon, 02 Nov 2026 12:00:00 GMT";
     mime_types := tables_before;
     stderr_error := None |}.
(** Noon again, with standard error on a closed pipe. *)
Definition dark : world :=
  {| files := root;
     date_time_string := "Tue, 03 Nov 2026 12:00:00 GMT";
     mime_types := tables_now;
     stderr_error := Some OSError |}.

Definition get (p : string) : request :=
  {| command := "GET"; path := p; version := "HTTP/1.1" |}.

(** A handler about to finalize the headers of a 200, and the same handler
    after the inherited [end_headers]. *)
Definition ready : handler :=
  send_response responses version_string (setup (get "/player.wasm"))
    (date_time_string noon) 200 None.


(** Ports below 1024 refused, 8080 taken, 49152 handed out for port 0. *)
Definition os : socket.os :=
  {| socket.port_unavailable := fun p => ((p <? 1024) || (p =? 8080))%Z;
     socket.ephemeral_port := Some 49152 |}.

(** A system on which no port is taken or refused. *)
Definition idle_os : socket.os :=
  {| socket.port_unavailable := fun _ => false;
     socket.ephemeral_port := Some 49152 |}.

(** The server object of [serve.py 9000] on that system. *)
Definition httpd9000 : TCPServer :=
  {| server_address := ("0.0.0.0", 9000);
     sock := {| socket.laddr := socket.INADDR_ANY; socket.lport := 9000 |};
     RequestHandlerClass := Handler.class;
     shutdown_request_flag := false |}.

(** Some traffic. *)
Definition morning : list arrival :=
  [Idle; Connection noon (get "/player.wasm"); AcceptFailed; NoRequest;
   Connection later (get "/missing"); Connection later (get "/%00")].

End fixtures.

(** ** Further vocabulary: replies of a run, shapes of the port argument *)

Module observations.
Import BaseHTTPRequestHandler SimpleHTTPRequestHandler socketserver.

Section Platform.

Variable responses : Z -> option string.
Variable version_string : string.
Variable static_reply : file_system -> request -> reply.

(** A turn of the loop that nothing disturbs: no interrupt, neither while
    polling nor while a request is handled or its file is looked up, and a
    standard error that takes what is written to it. *)
Definition undisturbed (a : arrival) : Prop :=
  match a with
  | Signal => False
  | Interrupted _ _ => False
  | Connection w req =>
      stderr_error w = None
      /\ outcome (static_reply (files w) req) <> Raise KeyboardInterrupt
  | _ => True
  end.

(** What a handler of class [cls] sends when it serves [req] in the world
    [w] on its own: its writes joined, or nothing when it raises. *)
Definition reply_bytes (cls : handler_class) (w : world) (req : request)
  : list string :=
  match handle_one_request responses version_string static_reply cls w req
  with
  | Ok h => [wire h]
  | Raise _ => []
  end.

(** The replies of the connections of a history, each served on its own. *)
Definition replies (cls : handler_class) (arrivals : list arrival)
  : list string :=
  flat_map
    (fun a =>
       match a with
       | Connection w req => reply_bytes cls w req
       | _ => []
       end)
    arrivals.

End Platform.

(** A string of blanks only (the empty string included). *)
Fixpoint all_blank (s : string) : bool :=
  match s with
  | EmptyString => true
  | String c s' => builtins.is_space c && all_blank s'
  end.

(** [k] leading zeros. *)
Fixpoint zeros (k : nat) : string :=
  match k with
  | O => EmptyString
  | S k' => String "0" (zeros k')
  end.

(** The character [c] occurs in [s]. *)
Definition occurs (c : ascii) (s : string) : Prop :=
  In c (list_ascii_of_string s).

(** The characters an [int] literal in base ten is made of: blanks, signs,
    digits and underscores. *)
Definition literal_char (c : ascii) : bool :=
  builtins.is_space c
  || builtins.is_underscore c
  || (match builtins.digit_value c with Some _ => true | None => false end)
  || Ascii.eqb c "+" || Ascii.eqb c "-".

(** What [int_literal] does with the text after the sign. *)
Definition literal_tail (sign : Z) (s2 : string) : option Z :=
  match builtins.scan_digits false 0 0 s2 with
  | Some (v, S m, rest) =>
      if (builtins.int_max_str_digits <? Z.of_nat (S m))%Z then None
      else
        match builtins.skip_spaces rest with
        | EmptyString => Some (sign * v)
        | _ => None
        end
  | _ => None
  end.

(** A request line without a version: HTTP/0.9. *)
Definition get09 (p : string) : request :=
  {| command := "GET"; path := p; version := "HTTP/0.9" |}.

End observations.

(** * Properties *)

(** ** [int(str(n)) == n] *)

Module builtins_facts.
Import builtins decimal.

Lemma scan_digits_digit (c : ascii) (k : Z) (s : string) acc n :
  is_underscore c = false -> digit_value c = Some k ->
  scan_digits false acc n (String c s)
  = scan_digits false (10 * acc + k) (S n) s.
Proof.
  intros Hu Hd. cbn [scan_digits]. rewrite Hu, Hd. reflexivity.
Qed.

Lemma scan_digits_string_of_uint (d : Decimal.uint) :
  forall acc n,
    scan_digits false acc n (NilEmpty.string_of_uint d)
    = Some (uint_fold acc d, (n + Decimal.nb_digits d)%nat, "").
Proof.
  induction d; intros acc n;
    cbn [NilEmpty.string_of_uint uint_fold Decimal.nb_digits];
    try (erewrite scan_digits_digit by reflexivity; rewrite IHd;
         do 2 f_equal; f_equal; lia).
  cbn [scan_digits]. do 2 f_equal. f_equal. lia.
Qed.

Lemma uint_fold_pos (d : Decimal.uint) :
  forall p, uint_fold (Z.pos p) d = Z.pos (Pos.of_uint_acc d p).
Proof.
  induction d; intros p; cbn [uint_fold Pos.of_uint_acc]; try reflexivity;
    match goal with
    | |- uint_fold ?a _ = Z.pos (Pos.of_uint_acc _ ?q) =>
        replace a with (Z.pos q) by lia; apply IHd
    end.
Qed.

Lemma uint_fold_0 (d : Decimal.uint) :
  uint_fold 0 d = Z.of_N (Pos.of_uint d).
Proof.
  induction d; cbn [uint_fold Pos.of_uint]; try reflexivity;
    try (change (10 * 0 + 0) with 0; exact IHd);
    match goal with
    | |- uint_fold ?a _ = Z.of_N (N.pos (Pos.of_uint_acc _ ?q)) =>
        change a with (Z.pos q); apply uint_fold_pos
    end.
Qed.

(** A digit sequence is worth at least its accumulator shifted by its
    length. *)
Lemma uint_fold_lower (d : Decimal.uint) :
  forall acc, 0 <= acc ->
    acc * 10 ^ Z.of_nat (Decimal.nb_digits d) <= uint_fold acc d.
Proof.
  induction d; intros acc Hacc; cbn [uint_fold Decimal.nb_digits];
    [rewrite Z.pow_0_r; lia|..];
    rewrite Nat2Z.inj_succ, Z.pow_succ_r by lia;
    (eapply Z.le_trans; [|apply IHd; lia]);
    pose proof (Z.pow_nonneg 10 (Z.of_nat (Decimal.nb_digits d))
                  ltac:(lia));
    nia.
Qed.

(** The decimal form of a positive number has no leading zero. *)
Lemma to_uint_head (p : positive) :
  match Pos.to_uint p with
  | Decimal.Nil | Decimal.D0 _ => False
  | _ => True
  end.
Proof.
  pose proof (DecimalPos.Unsigned.to_of (Pos.to_uint p)) as Hn.
  rewrite DecimalPos.Unsigned.of_to in Hn. cbn [N.to_uint] in Hn.
  pose proof (DecimalPos.Unsigned.to_uint_nonnil p) as Hnil.
  pose proof (DecimalPos.Unsigned.to_uint_nonzero p) as Hz.
  destruct (Pos.to_uint p) as [|u| | | | | | | | |]; try exact I;
    [congruence|].
  rewrite DecimalFacts.unorm_D0 in Hn.
  destruct u as [|u| | | | | | | | |]; [apply Hz; reflexivity|..];
    match type of Hn with
    | Decimal.D0 ?v = _ =>
        assert (Hv : v <> Decimal.Nil) by discriminate;
        pose proof (DecimalFacts.nb_digits_unorm v Hv) as Hle;
        rewrite <- Hn in Hle; cbn [Decimal.nb_digits] in Hle; lia
    end.
Qed.

(** A positive number below [10 ^ k] has at most [k] digits. *)
Lemma digits_bound (p : positive) (k : Z) :
  0 <= k -> Z.pos p < 10 ^ k ->
  Z.of_nat (Decimal.nb_digits (Pos.to_uint p)) <= k.
Proof.
  intros Hk Hp.
  pose proof (to_uint_head p) as Hhead.
  pose proof (uint_fold_0 (Pos.to_uint p)) as Hval.
  rewrite DecimalPos.Unsigned.of_to in Hval. cbn [Z.of_N] in Hval.
  destruct (Z_le_gt_dec (Z.of_nat (Decimal.nb_digits (Pos.to_uint p))) k)
    as [Hle|Hgt]; [exact Hle|exfalso].
  destruct (Pos.to_uint p) as [|u|u|u|u|u|u|u|u|u|u]; try contradiction;
    cbn [uint_fold Decimal.nb_digits] in Hval, Hgt;
    rewrite Nat2Z.inj_succ in Hgt;
    match type of Hval with
    | uint_fold ?a u = _ =>
        pose proof (uint_fold_lower u a ltac:(lia)) as Hlow
    end;
    pose proof (Z.pow_le_mono_r 10 k (Z.of_nat (Decimal.nb_digits u))
                  ltac:(lia) ltac:(lia)) as Hmono;
    nia.
Qed.

Lemma string_length_uint (d : Decimal.uint) :
  String.length (NilEmpty.string_of_uint d) = Decimal.nb_digits d.
Proof.
  induction d; cbn [NilEmpty.string_of_uint String.length Decimal.nb_digits];
    congruence.
Qed.

(** The first character of a printed digit sequence is a digit: [int]
    neither skips it as a blank nor reads it as a sign or underscore. *)
Lemma int_literal_string_of_uint (sign : Z) (d : Decimal.uint) :
  d <> Decimal.Nil ->
  Z.of_nat (Decimal.nb_digits d) <= int_max_str_digits ->
  match scan_digits false 0 0 (NilEmpty.string_of_uint d) with
  | Some (v, S m, rest) =>
      if (int_max_str_digits <? Z.of_nat (S m))%Z then None
      else
        match skip_spaces rest with
        | EmptyString => Some (sign * v)
        | _ => None
        end
  | _ => None
  end = Some (sign * Z.of_N (Pos.of_uint d)).
Proof.
  intros Hd Hn. rewrite scan_digits_string_of_uint, uint_fold_0.
  destruct (Decimal.nb_digits d) as [|m] eqn:E;
    [apply DecimalFacts.nb_digits_0 in E; congruence|].
  cbn [Nat.add].
  replace (int_max_str_digits <? Z.of_nat (S m))%Z with false
    by (symmetry; apply Z.ltb_ge; exact Hn).
  reflexivity.
Qed.

(** [int(str(n)) == n], as long as [n] has no more digits than [int]
    accepts. *)
Lemma int_literal_str (n : Z) :
  Z.abs n < 10 ^ int_max_str_digits -> int_literal (str n) = Some n.
Proof.
  intros Hn. unfold str. destruct n as [|p|p]; [reflexivity| |];
    cbn [Z.to_int NilZero.string_of_int].
  - pose proof (DecimalPos.Unsigned.to_uint_nonnil p) as Hnil.
    pose proof (int_literal_string_of_uint 1 _ Hnil
                  (digits_bound p int_max_str_digits ltac:(discriminate) Hn))
      as H.
    rewrite DecimalPos.Unsigned.of_to in H.
    unfold NilZero.string_of_uint.
    destruct (Pos.to_uint p) eqn:E; try congruence; exact H.
  - pose proof (DecimalPos.Unsigned.to_uint_nonnil p) as Hnil.
    pose proof (int_literal_string_of_uint (-1) _ Hnil
                  (digits_bound p int_max_str_digits ltac:(discriminate) Hn))
      as H.
    rewrite DecimalPos.Unsigned.of_to in H.
    unfold NilZero.string_of_uint.
    destruct (Pos.to_uint p) eqn:E; try congruence; exact H.
Qed.

Theorem int_str (n : Z) :
  Z.abs n < 10 ^ int_max_str_digits -> int (str n) = Ok n.
Proof. intros Hn. unfold int. rewrite int_literal_str by exact Hn. reflexivity. Qed.

(** Port numbers are far below the digit limit. *)
Lemma port_below_limit (n : Z) :
  Z.abs n <= 65535 -> Z.abs n < 10 ^ int_max_str_digits.
Proof.
  intros Hn. apply Z.le_lt_trans with (m := 65535); [exact Hn|].
  apply Z.lt_le_trans with (m := 10 ^ 5); [reflexivity|].
  apply Z.pow_le_mono_r; [lia|discriminate].
Qed.

(** [int] fails with [ValueError] only. *)
Lemma int_raises (s : string) (e : exn) : int s = Raise e -> e = ValueError.
Proof. unfold int. destruct (int_literal s); congruence. Qed.

Lemma count_char_app c s t :
  count_char c (s ++ t) = (count_char c s + count_char c t)%nat.
Proof.
  induction s as [|c0 s IH]; cbn [append count_char]; [reflexivity|].
  rewrite IH. lia.
Qed.

Lemma count_LF_string_of_uint (d : Decimal.uint) :
  count_char LF (NilEmpty.string_of_uint d) = 0%nat.
Proof.
  induction d; cbn [NilEmpty.string_of_uint count_char];
    try reflexivity; rewrite IHd; reflexivity.
Qed.

Lemma count_LF_str (n : Z) : count_char LF (str n) = 0%nat.
Proof.
  unfold str. destruct n as [|p|p]; [reflexivity| |];
    cbn [Z.to_int NilZero.string_of_int count_char];
    unfold NilZero.string_of_uint;
    destruct (Pos.to_uint p) eqn:E; try reflexivity;
    rewrite <- E; rewrite count_LF_string_of_uint; reflexivity.
Qed.

End builtins_facts.

(** ** Strings and joins *)

Lemma append_nil_r (s : string) : s ++ "" = s.
Proof. induction s as [|c s IH]; cbn [append]; congruence. Qed.

Lemma append_assoc (s t u : string) : (s ++ t) ++ u = s ++ (t ++ u).
Proof. induction s as [|c s IH]; cbn [append]; congruence. Qed.

Lemma join_cons (x : string) (l : list string) : join (x :: l) = x ++ join l.
Proof.
  unfold join. destruct l as [|y l]; cbn [concat].
  - symmetry. apply append_nil_r.
  - reflexivity.
Qed.

Lemma join_app (l1 l2 : list string) :
  join (l1 ++ l2)%list = join l1 ++ join l2.
Proof.
  induction l1 as [|x l1 IH]; [reflexivity|].
  cbn [app]. rewrite !join_cons, IH. symmetry. apply append_assoc.
Qed.

(** ** The header methods *)

Module handler_facts.
Import BaseHTTPRequestHandler SimpleHTTPRequestHandler.

(** Nothing but [end_headers] and the body copy touches the socket. *)
Lemma wfile_buffer_append self line :
  wfile (buffer_append self line) = wfile self.
Proof. unfold buffer_append. destruct (_headers_buffer self); reflexivity. Qed.

Lemma is_http09_buffer_append self line :
  is_http09 (buffer_append self line) = is_http09 self.
Proof. unfold buffer_append. destruct (_headers_buffer self); reflexivity. Qed.

Lemma buffer_append_some self line :
  exists buf, _headers_buffer (buffer_append self line) = Some buf.
Proof. unfold buffer_append. destruct (_headers_buffer self); eexists; reflexivity. Qed.

Ltac header_cases :=
  repeat match goal with
    | |- context [if ?b then _ else _] => destruct b
    end.

Lemma wfile_send_header self k v : wfile (send_header self k v) = wfile self.
Proof.
  unfold send_header. header_cases; cbn [wfile set_close_connection];
    rewrite ?wfile_buffer_append; reflexivity.
Qed.

Lemma is_http09_send_header self k v :
  is_http09 (send_header self k v) = is_http09 self.
Proof.
  unfold send_header.
  destruct (is_http09 self) eqn:E; cbn [negb]; header_cases;
    unfold is_http09 in *; cbn [request_version set_close_connection];
    fold (is_http09 (buffer_append self (k ++ ": " ++ v ++ CRLF)));
    rewrite ?is_http09_buffer_append; assumption.
Qed.

Lemma buffered_send_header self k v : buffered (send_header self k v).
Proof.
  intros H. rewrite is_http09_send_header in H.
  unfold send_header. rewrite H. cbn [negb].
  header_cases; cbn [_headers_buffer set_close_connection];
    apply buffer_append_some.
Qed.

Lemma send_headers_invariant hs : forall self,
  buffered self ->
  wfile (send_headers self hs) = wfile self
  /\ is_http09 (send_headers self hs) = is_http09 self
  /\ buffered (send_headers self hs).
Proof.
  induction hs as [|[k v] hs IH]; intros self Hb; cbn [send_headers fold_left].
  - auto.
  - destruct (IH (send_header self k v) (buffered_send_header self k v))
      as (Hw & H9 & Hbuf).
    unfold send_headers in *. cbn [fst snd].
    rewrite Hw, H9, wfile_send_header, is_http09_send_header. auto.
Qed.

(** The handler as [handle_one_request] has it when it calls
    [self.end_headers()]: nothing written yet, headers buffered. *)
Lemma before_end_headers responses version_string date code message hs req :
  let self :=
    send_headers
      (send_response responses version_string (setup req) date code message)
      hs in
  wfile self = [] /\ buffered self.
Proof.
  cbn zeta. unfold send_response.
  set (h1 := send_header _ "Server" _).
  destruct (send_headers_invariant hs
              (send_header h1 "Date" date)
              (buffered_send_header h1 "Date" date)) as (Hw & _ & Hb).
  split; [|exact Hb].
  rewrite Hw, wfile_send_header. subst h1. rewrite wfile_send_header.
  unfold send_response_only. header_cases; rewrite ?wfile_buffer_append;
    reflexivity.
Qed.

(** What the inherited and the overriding [end_headers] write. *)
Lemma base_end_headers_writes self :
  buffered self ->
  exists self_b tail,
    end_headers self = Ok self_b
    /\ wfile self_b = (wfile self ++ tail)%list
    /\ (is_http09 self = true -> tail = [])
    /\ (is_http09 self = false ->
        exists buf, _headers_buffer self = Some buf
                    /\ tail = [join buf ++ CRLF]).
Proof.
  intros Hb. unfold end_headers. destruct (is_http09 self) eqn:E; cbn [negb].
  - exists self, []. rewrite app_nil_r. repeat split; congruence.
  - destruct (Hb E) as [buf Hbuf]. rewrite Hbuf.
    eexists _, [join buf ++ CRLF]. repeat split; try congruence.
    + unfold flush_headers.
      cbn [_headers_buffer set_headers_buffer wfile wfile_write].
      rewrite join_app. reflexivity.
    + intros _. exists buf. split; reflexivity.
Qed.

Lemma override_end_headers_writes self self_b :
  end_headers self = Ok self_b ->
  exists self_h,
    Handler.end_headers self = Ok self_h
    /\ forall tail, wfile self_b = (wfile self ++ tail)%list ->
         wfile self_h
         = (wfile self
              ++ (Handler.COOP ++ CRLF)%string
                 :: (Handler.COEP ++ CRLF)%string :: tail)%list.
Proof.
  unfold Handler.end_headers, end_headers.
  change (is_http09 (wfile_write (wfile_write self (Handler.COOP ++ CRLF))
                       (Handler.COEP ++ CRLF))) with (is_http09 self).
  destruct (is_http09 self); cbn [negb].
  - intros H; injection H as <-. eexists; split; [reflexivity|].
    intros tail Ht. cbn [wfile wfile_write].
    assert (tail = []) as ->.
    { apply (app_inv_head (wfile self)). rewrite app_nil_r. symmetry; exact Ht. }
    rewrite <- app_assoc. reflexivity.
  - cbn [_headers_buffer wfile_write]. destruct (_headers_buffer self) as [buf|];
      [|discriminate].
    intros H; injection H as <-. eexists; split; [reflexivity|].
    intros tail. unfold flush_headers.
    cbn [_headers_buffer set_headers_buffer wfile wfile_write].
    intros Ht. apply app_inv_head in Ht. subst tail.
    rewrite <- !app_assoc. reflexivity.
Qed.

End handler_facts.

(** ** Replies of the two handler classes *)

Module reply_facts.
Import BaseHTTPRequestHandler SimpleHTTPRequestHandler handler_facts.

Section Platform.

Variable responses : Z -> option string.
Variable version_string : string.
Variable static_reply : file_system -> request -> reply.

Let handle := handle_one_request responses version_string static_reply.

(** When the unmodified library handler answers, [Handler] answers too, with
    the two policy lines put in front of the library's reply, that is, in
    front of the status line; when the library handler raises, [Handler]
    raises the same exception. *)
Lemma handler_reply (w : world) (req : request) :
  match handle SimpleHTTPRequestHandler.class w req with
  | Ok self_b =>
      exists self_h,
        handle Handler.class w req = Ok self_h
        /\ wire self_h
           = (Handler.COOP ++ CRLF) ++ (Handler.COEP ++ CRLF) ++ wire self_b
  | Raise e => handle Handler.class w req = Raise e
  end.
Proof.
  unfold handle, handle_one_request.
  set (r := static_reply (files w) req).
  destruct (outcome r) as [a|e]; cbn [bind]; [|reflexivity].
  destruct (log_message w) as [u|e]; cbn [bind]; [|reflexivity].
  destruct (before_end_headers responses version_string
              (date_time_string w) (code a) (message a)
              (content_type (mime_types w) r a ++ headers a)%list req)
    as (Hw & Hb).
  set (self := send_headers _ _) in *.
  destruct (base_end_headers_writes self Hb)
    as (self_b & tail & Hend & Htail & _).
  destruct (override_end_headers_writes self self_b Hend)
    as (self_h & Hover & Hwh).
  specialize (Hwh tail Htail). rewrite Hw in Htail, Hwh.
  cbn [app] in Htail, Hwh.
  cbn [end_headers_of SimpleHTTPRequestHandler.class Handler.class].
  rewrite Hend, Hover. cbn [bind].
  eexists. split; [reflexivity|].
  unfold wire.
  destruct (body a); cbn [wfile wfile_write]; rewrite Hwh, Htail;
    rewrite ?app_comm_cons, ?join_app, ?join_cons; rewrite ?append_assoc;
    reflexivity.
Qed.

Lemma handler_reply_ok (w : world) (req : request) (self_b : handler) :
  handle SimpleHTTPRequestHandler.class w req = Ok self_b ->
  exists self_h,
    handle Handler.class w req = Ok self_h
    /\ wire self_h
       = (Handler.COOP ++ CRLF) ++ (Handler.COEP ++ CRLF) ++ wire self_b.
Proof.
  intros H. generalize (handler_reply w req). rewrite H. trivial.
Qed.

(** The library handler raises only what the file lookup raises or what
    writing the access-log line to standard error raises. *)
Lemma library_raises (w : world) (req : request) (e : exn) :
  handle SimpleHTTPRequestHandler.class w req = Raise e ->
  outcome (static_reply (files w) req) = Raise e \/ stderr_error w = Some e.
Proof.
  unfold handle, handle_one_request.
  set (r := static_reply (files w) req).
  destruct (outcome r) as [a|e0]; cbn [bind];
    [|intros H; injection H as ->; left; reflexivity].
  unfold log_message. destruct (stderr_error w) as [e1|]; cbn [bind].
  - intros H; injection H as ->. right; reflexivity.
  - destruct (before_end_headers responses version_string
                (date_time_string w) (code a) (message a)
                (content_type (mime_types w) r a ++ headers a)%list req)
      as (_ & Hb).
    set (self := send_headers _ _) in *.
    destruct (base_end_headers_writes self Hb) as (self_b & tail & Hend & _).
    cbn [end_headers_of SimpleHTTPRequestHandler.class].
    rewrite Hend. cbn [bind]. discriminate.
Qed.

(** The two classes raise on the same requests, and the same exception. *)
Lemma handler_raises (w : world) (req : request) (e : exn) :
  handle Handler.class w req = Raise e
  <-> handle SimpleHTTPRequestHandler.class w req = Raise e.
Proof.
  generalize (handler_reply w req).
  destruct (handle SimpleHTTPRequestHandler.class w req) as [self_b|e'].
  - intros (self_h & -> & _). split; discriminate.
  - intros ->. tauto.
Qed.

End Platform.

End reply_facts.

(** ** Claims about the response headers *)

Import BaseHTTPRequestHandler SimpleHTTPRequestHandler.

(** C1.  The claim asks that both policy lines be among the response
    headers of every response.  The override writes them straight to the
    socket while the status line and the headers are still in the library's
    buffer, so on the wire they come before the status line.  Evaluated on a
    GET for an existing file: the client finds the opener-policy line where
    the status line belongs, the real status line among the header fields,
    and no opener-policy header field. *)
Theorem C1_policy_lines_precede_status_line :
  exists self,
    handle_one_request fixtures.responses fixtures.version_string
      fixtures.static_reply Handler.class fixtures.noon
      (fixtures.get "/player.wasm") = Ok self
    /\ http_message.status_line (wire self) = Handler.COOP
    /\ In "HTTP/1.0 200 OK" (http_message.header_fields (wire self))
    /\ ~ In Handler.COOP (http_message.header_fields (wire self)).
Proof.
  eexists. split; [reflexivity|].
  split; [reflexivity|]. split.
  - vm_compute. tauto.
  - vm_compute. intros H.
    repeat match goal with
      | H : _ \/ _ |- _ => destruct H as [H|H]; [discriminate H|]
      end.
    exact H.
Qed.



(** ** Start-up *)

Module startup_facts.
Import socketserver serve.

Lemma PORT_default (prog : string) : PORT [prog] = Ok 8080.
Proof. reflexivity. Qed.

Lemma PORT_argument (prog s : string) : PORT [prog; s] = builtins.int s.
Proof. reflexivity. Qed.

(** The listener is constructed on [('', PORT)], whatever [PORT] is. *)
Lemma main_httpd (o : socket.os) (argv : list string) (port : Z) :
  PORT argv = Ok port ->
  httpd (main o argv) = socketserver.init o ("", port) Handler.class.
Proof.
  intros HP. unfold main. rewrite HP.
  destruct (socketserver.init o ("", port) Handler.class); reflexivity.
Qed.

Lemma main_stdout (o : socket.os) (argv : list string) (port : Z)
    (srv : TCPServer) :
  PORT argv = Ok port ->
  httpd (main o argv) = Ok srv ->
  stdout (main o argv)
  = "Serving on http://localhost:" ++ builtins.str port ++ String LF "".
Proof.
  intros HP. unfold main. rewrite HP.
  destruct (socketserver.init o ("", port) Handler.class);
    [reflexivity|discriminate].
Qed.

Lemma main_failure (o : socket.os) (argv : list string) (e : exn) :
  httpd (main o argv) = Raise e ->
  main o argv = {| stdout := ""; httpd := Raise e |}.
Proof.
  unfold main. destruct (PORT argv) as [port|e'].
  - destruct (socketserver.init o ("", port) Handler.class);
      cbn [httpd]; congruence.
  - cbn [httpd]; congruence.
Qed.

(** On an available port in range the constructor succeeds on that port. *)
Lemma init_available (o : socket.os) (cls : BaseHTTPRequestHandler.handler_class)
    (port : Z) :
  1 <= port <= 65535 ->
  socket.port_unavailable o port = false ->
  socketserver.init o ("", port) cls
  = Ok {| server_address := ("0.0.0.0", port);
          sock := {| socket.laddr := socket.INADDR_ANY; socket.lport := port |};
          RequestHandlerClass := cls;
          shutdown_request_flag := false |}.
Proof.
  intros Hr Hfree. unfold socketserver.init, socket.bind.
  replace ((port <? 0) || (65535 <? port))%Z with false by lia.
  replace (port =? 0)%Z with false by lia.
  rewrite Hfree. reflexivity.
Qed.

(** A server object that was constructed listens on every interface, with
    the shutdown flag clear. *)
Lemma init_ok (o : socket.os) (cls : BaseHTTPRequestHandler.handler_class)
    (port : Z) (srv : TCPServer) :
  socketserver.init o ("", port) cls = Ok srv ->
  socket.laddr (sock srv) = socket.INADDR_ANY
  /\ shutdown_request_flag srv = false
  /\ RequestHandlerClass srv = cls
  /\ server_address srv = ("0.0.0.0", socket.lport (sock srv))
  /\ (port <> 0 -> socket.lport (sock srv) = port).
Proof.
  unfold socketserver.init, socket.bind.
  destruct ((port <? 0) || (65535 <? port))%Z; [discriminate|].
  destruct (port =? 0)%Z eqn:E0.
  - destruct (socket.ephemeral_port o); [|discriminate].
    cbn [bind]. intros H; injection H as <-. cbn. repeat split. lia.
  - destruct (socket.port_unavailable o port); [discriminate|].
    cbn [bind]. intros H; injection H as <-. cbn. repeat split.
Qed.

(** In range, the constructor fails exactly when the system refuses the
    port. *)
Lemma init_in_range (o : socket.os)
    (cls : BaseHTTPRequestHandler.handler_class) (port : Z) :
  1 <= port <= 65535 ->
  socketserver.init o ("", port) cls
  = if socket.port_unavailable o port then Raise OSError
    else Ok {| server_address := ("0.0.0.0", port);
               sock := {| socket.laddr := socket.INADDR_ANY;
                          socket.lport := port |};
               RequestHandlerClass := cls;
               shutdown_request_flag := false |}.
Proof.
  intros Hr.
  destruct (socket.port_unavailable o port) eqn:E;
    [|apply init_available; assumption].
  unfold socketserver.init, socket.bind.
  replace ((port <? 0) || (65535 <? port))%Z with false by lia.
  replace (port =? 0)%Z with false by lia.
  rewrite E. reflexivity.
Qed.

(** The server object the script enters [serve_forever] on. *)
Lemma started_server (o : socket.os) (argv : list string) (srv : TCPServer) :
  httpd (main o argv) = Ok srv ->
  shutdown_request_flag srv = false
  /\ RequestHandlerClass srv = Handler.class.
Proof.
  intros Hstart.
  unfold main in Hstart. destruct (PORT argv) as [port|]; [|discriminate].
  destruct (socketserver.init o ("", port) Handler.class) as [srv'|] eqn:E;
    [|discriminate].
  cbn [httpd] in Hstart. injection Hstart as <-.
  destruct (init_ok o _ port srv' E) as (_ & Hf & Hc & _).
  split; assumption.
Qed.

End startup_facts.

(** ** The serving loop *)

Module loop_facts.
Import socketserver.

Section Platform.

Variable responses : Z -> option string.
Variable version_string : string.
Variable static_reply : file_system -> request -> reply.

Let step := iteration responses version_string static_reply.
Let handle := handle_one_request responses version_string static_reply.

(** Why an exception left the loop: an interrupt, or a handler failure
    whose report could not be written to standard error. *)
Let cause (cls : handler_class) (e : exn) (arrivals : list arrival) : Prop :=
  e = KeyboardInterrupt
  \/ exists w req db e0,
       In (Connection w req) arrivals
       /\ stderr_error w = Some e
       /\ handle cls (in_effect db w) req = Raise e0.

(** Once the call has ended, further arrivals change nothing. *)
Lemma ended_is_final (arrivals : list arrival) (st : loop) :
  (forall self db sent, st <> Polling self db sent) ->
  fold_left step arrivals st = st.
Proof.
  induction arrivals as [|a l IH]; intros Hst; [reflexivity|].
  cbn [fold_left]. destruct st as [self db sent| |];
    [exfalso; eapply Hst; reflexivity| |]; cbn [step iteration]; apply IH;
    discriminate.
Qed.

(** The loaded tables replace those of the world, and nothing else. *)
Lemma in_effect_files (db : option mime_db) (w : world) :
  files (in_effect db w) = files w.
Proof. destruct db; reflexivity. Qed.

Lemma in_effect_stderr (db : option mime_db) (w : world) :
  stderr_error (in_effect db w) = stderr_error w.
Proof. destruct db; reflexivity. Qed.

Lemma in_effect_own (db : option mime_db) (w : world) :
  db = None \/ db = Some (mime_types w) -> in_effect db w = w.
Proof. intros [->| ->]; [reflexivity|]. destruct w; reflexivity. Qed.

Lemma loaded_cases (db : option mime_db) (w : world) (req : request) :
  db = None \/ db = Some (mime_types w) ->
  loaded static_reply db w req = None
  \/ loaded static_reply db w req = Some (mime_types w).
Proof.
  intros [->| ->]; [|right; reflexivity].
  unfold loaded. destruct (guess (static_reply (files w) req)); auto.
Qed.

(** One turn of the loop while the shutdown flag is clear. *)
Lemma turn (self : TCPServer) (db : option mime_db) (sent : list string)
    (a : arrival) :
  shutdown_request_flag self = false ->
  step (Polling self db sent) a
  = match a with
    | Signal => Propagated KeyboardInterrupt sent
    | Interrupted _ _ => Propagated KeyboardInterrupt sent
    | Connection w req =>
        match handle (RequestHandlerClass self) (in_effect db w) req with
        | Ok h =>
            Polling self (loaded static_reply db w req) (sent ++ [wire h])
        | Raise e =>
            if is_Exception e then
              match stderr_error w with
              | None => Polling self (loaded static_reply db w req) sent
              | Some e' => Propagated e' sent
              end
            else Propagated e sent
        end
    | _ => Polling self db sent
    end.
Proof.
  intros Hf. unfold step, handle. cbn [iteration]. rewrite Hf.
  destruct a as [| | |w req|w req|]; try reflexivity.
  unfold _handle_request_noblock.
  destruct (handle_one_request _ _ _ _ _ req) as [h|e]; [reflexivity|].
  destruct (is_Exception e); [|reflexivity].
  destruct (stderr_error w); [reflexivity|].
  rewrite app_nil_r. reflexivity.
Qed.

Lemma cause_later (cls : handler_class) (e : exn) (a : arrival)
    (l : list arrival) :
  cause cls e l -> cause cls e (a :: l).
Proof.
  intros [H|(w & req & db & e0 & Hin & Hrest)]; [left; exact H|right].
  exists w, req, db, e0. split; [right; exact Hin|exact Hrest].
Qed.

Lemma not_Exception (e : exn) : is_Exception e = false -> e = KeyboardInterrupt.
Proof. destruct e; [discriminate..|reflexivity]. Qed.

(** The loop invariant: while the shutdown flag is clear the call either
    is still polling on the same server object or has ended with an
    exception, and then for one of the two causes; it has not returned. *)
Lemma run_cases (self : TCPServer) (arrivals : list arrival) :
  shutdown_request_flag self = false ->
  forall db sent,
    (exists db' sent',
       fold_left step arrivals (Polling self db sent) = Polling self db' sent')
    \/ (exists e sent',
          fold_left step arrivals (Polling self db sent) = Propagated e sent'
          /\ cause (RequestHandlerClass self) e arrivals).
Proof.
    intros Hf. induction arrivals as [|a l IH]; intros db sent.
  - left. exists db, sent. reflexivity.
  - assert (Hnext : forall db1 sent1,
              (exists db' sent',
                 fold_left step l (Polling self db1 sent1)
                 = Polling self db' sent')
              \/ (exists e sent',
                    fold_left step l (Polling self db1 sent1)
                    = Propagated e sent'
                    /\ cause (RequestHandlerClass self) e (a :: l))).
    { intros db1 sent1.
      destruct (IH db1 sent1) as [H|(e & s & H & Hc)]; [left; exact H|].
      right. exists e, s. split; [exact H|apply cause_later; exact Hc]. }
    assert (Hint : forall sent1,
              exists e sent',
                fold_left step l (Propagated KeyboardInterrupt sent1)
                = Propagated e sent'
                /\ cause (RequestHandlerClass self) e (a :: l)).
    { intros sent1. exists KeyboardInterrupt, sent1.
      split; [apply ended_is_final; discriminate|left; reflexivity]. }
    cbn [fold_left]. rewrite (turn self db sent a Hf).
    destruct a as [| | |w req|w req|]; auto.
    destruct (handle (RequestHandlerClass self) (in_effect db w) req)
      as [h|e0] eqn:E; [apply Hnext|].
    destruct (is_Exception e0) eqn:Ex.
    + destruct (stderr_error w) as [e'|] eqn:Es; [|apply Hnext].
      right. exists e', sent.
      split; [apply ended_is_final; discriminate|].
      right. exists w, req, db, e0.
      split; [left; reflexivity|]. split; [exact Es|exact E].
    + apply not_Exception in Ex. subst e0. right.
      exists KeyboardInterrupt, sent.
      split; [apply ended_is_final; discriminate|left; reflexivity].
Qed.

(** A call that is still polling polls on the server object it began on. *)
Lemma polling_same_server (self : TCPServer) (arrivals : list arrival)
    db sent self' db' sent' :
  shutdown_request_flag self = false ->
  fold_left step arrivals (Polling self db sent) = Polling self' db' sent' ->
  self' = self.
Proof.
  intros Hf H.
  destruct (run_cases self arrivals Hf db sent)
    as [(db1 & s1 & H1)|(e & s1 & H1 & _)]; rewrite H1 in H.
  - injection H as <- _ _. reflexivity.
  - discriminate.
Qed.

(** With the script's handler class, undisturbed turns leave the loop
    polling. *)
Lemma calm_run (self : TCPServer) (arrivals : list arrival) :
  shutdown_request_flag self = false ->
  RequestHandlerClass self = Handler.class ->
  Forall (observations.undisturbed static_reply) arrivals ->
  forall db sent,
  exists db' sent',
    fold_left step arrivals (Polling self db sent) = Polling self db' sent'.
Proof.
    intros Hf Hcls. induction arrivals as [|a l IH]; intros Hcalm db sent.
  - exists db, sent. reflexivity.
  - inversion Hcalm as [|a' l' Ha Hl]; subst.
    cbn [fold_left]. rewrite (turn self db sent a Hf).
    destruct a as [| | |w req|w req|]; try (apply IH; exact Hl);
      try (destruct Ha).
    rewrite Hcls.
    destruct (handle Handler.class (in_effect db w) req) as [h|e0] eqn:E;
      [apply IH; exact Hl|].
    apply reply_facts.handler_raises, reply_facts.library_raises in E.
    rewrite in_effect_files, in_effect_stderr in E.
    match goal with H : stderr_error w = None |- _ => rewrite H in * end.
    destruct E as [E|E]; [|discriminate].
    destruct e0; cbn [is_Exception]; try (apply IH; exact Hl).
    contradiction.
Qed.

(** While every request meets the same system MIME files, the table the
    process holds is that one or none yet. *)
Lemma cache_invariant (self : TCPServer) (t : mime_db)
    (history : list arrival) :
  shutdown_request_flag self = false ->
  (forall w req, In (Connection w req) history -> mime_types w = t) ->
  forall db sent self' db' sent',
    db = None \/ db = Some t ->
    fold_left step history (Polling self db sent) = Polling self' db' sent' ->
    db' = None \/ db' = Some t.
Proof.
  intros Hf. induction history as [|a l IH];
    intros Hsame db sent self' db' sent' Hdb.
  - cbn [fold_left]. intros H; injection H as _ <- _. exact Hdb.
  - assert (Hl : forall w req, In (Connection w req) l -> mime_types w = t)
      by (intros w req Hin; apply (Hsame w req); right; exact Hin).
    cbn [fold_left]. rewrite (turn self db sent a Hf).
    destruct a as [| | |w req|w req|];
      try (apply (IH Hl); exact Hdb);
      try (rewrite ended_is_final by discriminate; discriminate).
    assert (Hw : mime_types w = t) by (apply (Hsame w req); left; reflexivity).
    assert (Hld : loaded static_reply db w req = None
                  \/ loaded static_reply db w req = Some t).
    { rewrite <- Hw. apply loaded_cases. rewrite Hw. exact Hdb. }
    destruct (handle (RequestHandlerClass self) (in_effect db w) req)
      as [h|e0]; [apply (IH Hl); exact Hld|].
    destruct (is_Exception e0);
      [|rewrite ended_is_final by discriminate; discriminate].
    destruct (stderr_error w);
      [rewrite ended_is_final by discriminate; discriminate|].
    apply (IH Hl); exact Hld.
Qed.

(** A connection that meets the table the process holds, or none, is served
    as the handler serves it on its own. *)
Lemma last_connection (self : TCPServer) (db : option mime_db)
    (sent : list string) (w : world) (req : request) :
  shutdown_request_flag self = false ->
  db = None \/ db = Some (mime_types w) ->
  step (Polling self db sent) (Connection w req)
  = match handle (RequestHandlerClass self) w req with
    | Ok h => Polling self (loaded static_reply db w req) (sent ++ [wire h])
    | Raise e =>
        if is_Exception e then
          match stderr_error w with
          | None => Polling self (loaded static_reply db w req) sent
          | Some e' => Propagated e' sent
          end
        else Propagated e sent
    end.
Proof.
  intros Hf Hdb. rewrite (turn self db sent _ Hf).
  rewrite (in_effect_own db w Hdb). reflexivity.
Qed.

(** What an undisturbed run has sent: the replies of its connections, each
    as the handler makes it on its own, in the order of arrival. *)
Lemma calm_trace (self : TCPServer) (t : mime_db) (arrivals : list arrival) :
  shutdown_request_flag self = false ->
  RequestHandlerClass self = Handler.class ->
  Forall (observations.undisturbed static_reply) arrivals ->
  (forall w req, In (Connection w req) arrivals -> mime_types w = t) ->
  forall db sent,
    db = None \/ db = Some t ->
    exists db',
      fold_left step arrivals (Polling self db sent)
      = Polling self db'
          (sent ++ observations.replies responses version_string static_reply
                     Handler.class arrivals).
Proof.
  intros Hf Hcls. induction arrivals as [|a l IH];
    intros Hcalm Hsame db sent Hdb.
  - exists db. cbn. rewrite app_nil_r. reflexivity.
  - inversion Hcalm as [|a' l' Ha Hl]; subst.
    assert (Hsl : forall w req, In (Connection w req) l -> mime_types w = t)
      by (intros w req Hin; apply (Hsame w req); right; exact Hin).
    cbn [fold_left]. unfold observations.replies. cbn [flat_map].
    fold (observations.replies responses version_string static_reply
            Handler.class l).
    destruct a as [| | |w req|w req|]; try (destruct Ha);
      try (rewrite (turn self db sent _ Hf); apply (IH Hl Hsl); exact Hdb).
    assert (Hw : mime_types w = t) by (apply (Hsame w req); left; reflexivity).
    rewrite <- Hw in Hdb.
    rewrite (last_connection self db sent w req Hf Hdb).
    pose proof (loaded_cases db w req Hdb) as Hld. rewrite Hw in Hld.
    rewrite Hcls. unfold observations.reply_bytes. fold handle.
    destruct (handle Handler.class w req) as [h|e0] eqn:E.
    + destruct (IH Hl Hsl (loaded static_reply db w req)
                  (sent ++ [wire h])%list Hld) as (db' & Hrun).
      exists db'. rewrite Hrun, <- app_assoc. reflexivity.
    + apply reply_facts.handler_raises, reply_facts.library_raises in E.
            match goal with H : stderr_error w = None |- _ => rewrite H in * end.
      destruct E as [E|E]; [|discriminate].
      destruct e0; cbn [is_Exception app]; try contradiction;
        apply (IH Hl Hsl); exact Hld.
Qed.

End Platform.

End loop_facts.

(** ** Claims about start-up and serving *)

Import socketserver serve.

(** C3.  For a port P with 1 <= P <= 65535 given as the only argument, in
    decimal, [PORT] is P and the listener is constructed on port P: unless
    the system refuses P, the server object exists and its listening socket
    is on P.  Any other spelling that [int] reads as P starts the same
    server.  With no argument the same holds of 8080. *)
Theorem C3_listener_port (o : socket.os) (prog : string) (P : Z) :
  1 <= P <= 65535 ->
  (PORT [prog; builtins.str P] = Ok P
   /\ httpd (main o [prog; builtins.str P])
      = (if socket.port_unavailable o P then Raise OSError
         else Ok {| server_address := ("0.0.0.0", P);
                    sock := {| socket.laddr := socket.INADDR_ANY;
                               socket.lport := P |};
                    RequestHandlerClass := Handler.class;
                    shutdown_request_flag := false |})
   /\ (forall s, builtins.int s = Ok P ->
        httpd (main o [prog; s]) = httpd (main o [prog; builtins.str P])))
  /\
  (PORT [prog] = Ok 8080
   /\ httpd (main o [prog])
      = (if socket.port_unavailable o 8080 then Raise OSError
         else Ok {| server_address := ("0.0.0.0", 8080);
                    sock := {| socket.laddr := socket.INADDR_ANY;
                               socket.lport := 8080 |};
                    RequestHandlerClass := Handler.class;
                    shutdown_request_flag := false |})).
Proof.
  intros HP.
  assert (Harg : PORT [prog; builtins.str P] = Ok P).
  { rewrite startup_facts.PORT_argument.
    apply builtins_facts.int_str, builtins_facts.port_below_limit. lia. }
  split; [split; [exact Harg|split]|split; [reflexivity|]].
  - rewrite (startup_facts.main_httpd o _ P Harg).
    apply startup_facts.init_in_range. exact HP.
  - intros s Hs.
    rewrite (startup_facts.main_httpd o _ P Harg).
    apply startup_facts.main_httpd.
    rewrite startup_facts.PORT_argument. exact Hs.
  - rewrite (startup_facts.main_httpd o [prog] 8080 eq_refl).
    apply startup_facts.init_in_range. lia.
Qed.

Lemma C3_witness :
  (PORT ["serve.py"; builtins.str 9000] = Ok 9000
   /\ httpd (main fixtures.idle_os ["serve.py"; builtins.str 9000])
      = (if socket.port_unavailable fixtures.idle_os 9000 then Raise OSError
         else Ok {| server_address := ("0.0.0.0", 9000);
                    sock := {| socket.laddr := socket.INADDR_ANY;
                               socket.lport := 9000 |};
                    RequestHandlerClass := Handler.class;
                    shutdown_request_flag := false |})
   /\ (forall s, builtins.int s = Ok 9000 ->
        httpd (main fixtures.idle_os ["serve.py"; s])
        = httpd (main fixtures.idle_os ["serve.py"; builtins.str 9000])))
  /\
  (PORT ["serve.py"] = Ok 8080
   /\ httpd (main fixtures.idle_os ["serve.py"])
      = (if socket.port_unavailable fixtures.idle_os 8080 then Raise OSError
         else Ok {| server_address := ("0.0.0.0", 8080);
                    sock := {| socket.laddr := socket.INADDR_ANY;
                               socket.lport := 8080 |};
                    RequestHandlerClass := Handler.class;
                    shutdown_request_flag := false |})).
Proof.
  apply (C3_listener_port fixtures.idle_os "serve.py" 9000). lia.
Defined.

(** C4.  If [int] rejects the argument, start-up ends with the uncaught
    [ValueError]: nothing is printed, no listener exists, the serving loop
    is not entered, and the outcome is not that of a start without argument
    (the default port is not used). *)
Theorem C4_rejected_argument_fails_startup
    (responses : Z -> option string) (version_string : string)
    (static_reply : file_system -> request -> reply)
    (o : socket.os) (prog s : string) (arrivals : list arrival) :
  builtins.int s = Raise ValueError ->
  main o [prog; s] = {| stdout := ""; httpd := Raise ValueError |}
  /\ run responses version_string static_reply o [prog; s] arrivals
     = ("", StartupFailed ValueError)
  /\ httpd (main o [prog; s]) <> httpd (main o [prog]).
Proof.
  intros Hint.
  assert (Hmain : main o [prog; s] = {| stdout := ""; httpd := Raise ValueError |}).
  { unfold main. rewrite startup_facts.PORT_argument, Hint. reflexivity. }
  split; [exact Hmain|]. split.
  - unfold run. rewrite Hmain. reflexivity.
  - rewrite Hmain. cbn [httpd].
    rewrite (startup_facts.main_httpd o [prog] 8080 eq_refl).
    unfold socketserver.init, socket.bind.
    change ((8080 <? 0) || (65535 <? 8080))%Z with false.
    change (8080 =? 0)%Z with false. cbv iota.
    destruct (socket.port_unavailable o 8080); discriminate.
Qed.

Lemma C4_witness :
  main fixtures.os ["serve.py"; "abc"]
  = {| stdout := ""; httpd := Raise ValueError |}
  /\ run fixtures.responses fixtures.version_string fixtures.static_reply
       fixtures.os ["serve.py"; "abc"]
       [Connection fixtures.noon (fixtures.get "/player.wasm")]
     = ("", StartupFailed ValueError)
  /\ httpd (main fixtures.os ["serve.py"; "abc"])
     <> httpd (main fixtures.os ["serve.py"]).
Proof.
  apply (C4_rejected_argument_fails_startup fixtures.responses
           fixtures.version_string fixtures.static_reply fixtures.os
           "serve.py" "abc").
  reflexivity.
Defined.

(** C5, as stated: an argument that parses as an integer that is not
    positive does not get past start-up.  It fails on ["0"]: the value 0 is
    handed to the listener, the system picks a port and the server starts. *)
Lemma C5_zero_passes_startup :
  builtins.int "0" = Ok 0
  /\ exists srv,
       main fixtures.os ["serve.py"; "0"]
       = {| stdout := "Serving on http://localhost:0" ++ String LF "";
            httpd := Ok srv |}
       /\ socket.lport (sock srv) = 49152.
Proof.
  split; [reflexivity|]. eexists. split; reflexivity.
Qed.

(** C5, amended.  The script checks nothing beyond what [int] checks: an
    argument that parses as an integer, of either sign, gets past [PORT]
    and its value is handed unchanged to the listener constructor.  A
    negative value is then refused by the bind call ([OverflowError]); the
    value 0 is accepted and the system picks the port. *)
Theorem C5_no_positivity_check (o : socket.os) (prog s : string) (n : Z) :
  builtins.int s = Ok n ->
  httpd (main o [prog; s]) = socketserver.init o ("", n) Handler.class
  /\ httpd (main o [prog; s]) <> Raise ValueError
  /\ (n < 0 -> httpd (main o [prog; s]) = Raise OverflowError)
  /\ (n = 0 -> forall p, socket.ephemeral_port o = Some p ->
        exists srv, httpd (main o [prog; s]) = Ok srv
                    /\ socket.lport (sock srv) = p).
Proof.
  intros Hn.
  assert (Hok : httpd (main o [prog; s])
                = socketserver.init o ("", n) Handler.class).
  { apply startup_facts.main_httpd.
    rewrite startup_facts.PORT_argument. exact Hn. }
  split; [exact Hok|]. rewrite Hok.
  unfold socketserver.init, socket.bind. split; [|split].
  - destruct ((n <? 0) || (65535 <? n))%Z; [discriminate|].
    destruct (n =? 0)%Z.
    + destruct (socket.ephemeral_port o); discriminate.
    + destruct (socket.port_unavailable o n); discriminate.
  - intros Hneg.
    replace ((n <? 0) || (65535 <? n))%Z with true by lia. reflexivity.
  - intros -> p Hp. cbn. rewrite Hp. eexists. split; reflexivity.
Qed.

Lemma C5_witness :
  builtins.int "-1" = Ok (-1)
  /\ httpd (main fixtures.os ["serve.py"; "-1"])
     = socketserver.init fixtures.os ("", -1) Handler.class
  /\ httpd (main fixtures.os ["serve.py"; "-1"]) <> Raise ValueError
  /\ (-1 < 0 ->
      httpd (main fixtures.os ["serve.py"; "-1"]) = Raise OverflowError)
  /\ (-1 = 0 -> forall p, socket.ephemeral_port fixtures.os = Some p ->
        exists srv, httpd (main fixtures.os ["serve.py"; "-1"]) = Ok srv
                    /\ socket.lport (sock srv) = p).
Proof.
  split; [reflexivity|].
  apply (C5_no_positivity_check fixtures.os "serve.py" "-1" (-1)).
  reflexivity.
Defined.

(** C6.  If the bind fails, the exception ends start-up: it is the outcome
    of the listener constructor and of the process, nothing is printed and
    the serving loop is not entered, whatever arrives. *)
Theorem C6_bind_failure_ends_startup
    (responses : Z -> option string) (version_string : string)
    (static_reply : file_system -> request -> reply)
    (o : socket.os) (argv : list string) (port : Z) (e : exn)
    (arrivals : list arrival) :
  PORT argv = Ok port ->
  socket.bind o ("", port) = Raise e ->
  main o argv = {| stdout := ""; httpd := Raise e |}
  /\ run responses version_string static_reply o argv arrivals
     = ("", StartupFailed e).
Proof.
  intros HP Hbind.
  assert (Hmain : main o argv = {| stdout := ""; httpd := Raise e |}).
  { apply startup_facts.main_failure.
    rewrite (startup_facts.main_httpd o argv port HP).
    unfold socketserver.init. rewrite Hbind. reflexivity. }
  split; [exact Hmain|]. unfold run. rewrite Hmain. reflexivity.
Qed.

Lemma C6_witness :
  main fixtures.os ["serve.py"] = {| stdout := ""; httpd := Raise OSError |}
  /\ run fixtures.responses fixtures.version_string fixtures.static_reply
       fixtures.os ["serve.py"]
       [Connection fixtures.noon (fixtures.get "/player.wasm")]
     = ("", StartupFailed OSError).
Proof.
  apply (C6_bind_failure_ends_startup fixtures.responses
           fixtures.version_string fixtures.static_reply fixtures.os
           ["serve.py"] 8080 OSError); reflexivity.
Defined.

(** C7, as stated: the serving loop ends only through an interruption
    from outside.  It fails when standard error is unusable (a closed
    pipe): the access-log line of the first request cannot be written, the
    library's report of that failure cannot be written either, and the
    error leaves [serve_forever] although no interrupt arrived. *)
Lemma C7_unusable_stderr_ends_loop :
  httpd (main fixtures.os ["serve.py"; "9000"]) = Ok fixtures.httpd9000
  /\ serve_forever fixtures.responses fixtures.version_string
       fixtures.static_reply fixtures.httpd9000
       [Idle; Connection fixtures.dark (fixtures.get "/player.wasm")]
     = Propagated OSError []
  /\ OSError <> KeyboardInterrupt.
Proof.
  split; [reflexivity|]. split; [reflexivity|discriminate].
Qed.

(** C7, amended.  Once start-up has succeeded, the call to [serve_forever]
    never returns.  It ends only with an exception: [KeyboardInterrupt],
    raised by an interrupt from outside, or the error of standard error when
    a handler failed on some connection and the report of that failure
    could not be written.  As long as every turn is undisturbed the loop is
    still polling, on the same server object. *)
Theorem C7_serve_forever_does_not_return
    (responses : Z -> option string) (version_string : string)
    (static_reply : file_system -> request -> reply)
    (o : socket.os) (argv : list string) (srv : TCPServer)
    (arrivals : list arrival) :
  httpd (main o argv) = Ok srv ->
  let final :=
    serve_forever responses version_string static_reply srv arrivals in
  (forall sent, final <> Returned sent)
  /\ (forall e sent, final = Propagated e sent ->
        e = KeyboardInterrupt
        \/ exists w req db e0,
             In (Connection w req) arrivals
             /\ stderr_error w = Some e
             /\ handle_one_request responses version_string static_reply
                  Handler.class (in_effect db w) req = Raise e0)
  /\ (Forall (observations.undisturbed static_reply) arrivals ->
      exists db sent, final = Polling srv db sent).
Proof.
  intros Hstart final.
  destruct (startup_facts.started_server o argv srv Hstart) as (Hflag & Hcls).
  split; [|split].
  - intros sent H.
    destruct (loop_facts.run_cases responses version_string static_reply
                srv arrivals Hflag None [])
      as [(db & s & Hs)|(e & s & Hs & _)];
      unfold final, serve_forever in H; rewrite Hs in H; discriminate.
  - intros e sent H.
    destruct (loop_facts.run_cases responses version_string static_reply
                srv arrivals Hflag None [])
      as [(db & s & Hs)|(e' & s & Hs & Hc)];
      unfold final, serve_forever in H; rewrite Hs in H; [discriminate|].
    injection H as <- _. rewrite Hcls in Hc. exact Hc.
  - intros Hcalm.
    exact (loop_facts.calm_run responses version_string static_reply
             srv arrivals Hflag Hcls Hcalm None []).
Qed.

Lemma C7_witness :
  let final :=
    serve_forever fixtures.responses fixtures.version_string
      fixtures.static_reply fixtures.httpd9000 fixtures.morning in
  (forall sent, final <> Returned sent)
  /\ (forall e sent, final = Propagated e sent ->
        e = KeyboardInterrupt
        \/ exists w req db e0,
             In (Connection w req) fixtures.morning
             /\ stderr_error w = Some e
             /\ handle_one_request fixtures.responses fixtures.version_string
                  fixtures.static_reply Handler.class (in_effect db w) req
                = Raise e0)
  /\ (Forall (observations.undisturbed fixtures.static_reply)
        fixtures.morning ->
      exists db sent, final = Polling fixtures.httpd9000 db sent).
Proof.
  apply (C7_serve_forever_does_not_return fixtures.responses
           fixtures.version_string fixtures.static_reply fixtures.os
           ["serve.py"; "9000"]).
  reflexivity.
Defined.

(** C8, as stated: the same request against the same files gets the same
    bytes, whatever was served before.  It fails in two ways.  The [Date]
    header follows the clock.  And the library keeps one table of MIME
    types for the whole process, read from the system's files at the first
    request that needs a type: the same request in the same world is
    answered with another [Content-type] when an earlier request loaded the
    table from older files. *)
Lemma C8_same_request_different_bytes :
  (files fixtures.noon = files fixtures.later
   /\ serve_forever fixtures.responses fixtures.version_string
        fixtures.static_reply fixtures.httpd9000
        [Connection fixtures.noon (fixtures.get "/player.wasm")]
      <> serve_forever fixtures.responses fixtures.version_string
           fixtures.static_reply fixtures.httpd9000
           [Connection fixtures.later (fixtures.get "/player.wasm")])
  /\ exists db1 first out1 db2 out2,
       serve_forever fixtures.responses fixtures.version_string
         fixtures.static_reply fixtures.httpd9000
         [Connection fixtures.eve (fixtures.get "/missing");
          Connection fixtures.noon (fixtures.get "/player.wasm")]
       = Polling fixtures.httpd9000 db1 [first; out1]
       /\ serve_forever fixtures.responses fixtures.version_string
            fixtures.static_reply fixtures.httpd9000
            [Connection fixtures.noon (fixtures.get "/player.wasm")]
          = Polling fixtures.httpd9000 db2 [out2]
       /\ out1 <> out2.
Proof.
  split.
  - split; [reflexivity|]. vm_compute. discriminate.
  - do 5 eexists. split; [reflexivity|]. split; [reflexivity|].
    vm_compute. discriminate.
Qed.

(** C8, amended.  Handling a request leaves the server object as it was;
    what outlives a request is the library's table of MIME types.  While
    the system's MIME files are the same at every request, a request gets
    the same after any two histories that left the loop polling: the reply
    bytes the handler makes of that request alone, in its own world (files,
    clock, standard error), or no byte and the same exception. *)
Theorem C8_reply_independent_of_history
    (responses : Z -> option string) (version_string : string)
    (static_reply : file_system -> request -> reply)
    (o : socket.os) (argv : list string) (srv : TCPServer)
    (history1 history2 : list arrival) (w : world) (req : request)
    (srv1 srv2 : TCPServer) (db1 db2 : option mime_db)
    (sent1 sent2 : list string) :
  httpd (main o argv) = Ok srv ->
  (forall w' req', In (Connection w' req') history1 ->
     mime_types w' = mime_types w) ->
  (forall w' req', In (Connection w' req') history2 ->
     mime_types w' = mime_types w) ->
  serve_forever responses version_string static_reply srv history1
  = Polling srv1 db1 sent1 ->
  serve_forever responses version_string static_reply srv history2
  = Polling srv2 db2 sent2 ->
  srv1 = srv /\ srv2 = srv
  /\ ((exists out db1' db2',
         serve_forever responses version_string static_reply srv
           (history1 ++ [Connection w req])
         = Polling srv db1' (sent1 ++ out)
         /\ serve_forever responses version_string static_reply srv
              (history2 ++ [Connection w req])
            = Polling srv db2' (sent2 ++ out)
         /\ forall self_h,
              handle_one_request responses version_string static_reply
                Handler.class w req = Ok self_h ->
              out = [wire self_h])
      \/ (exists e,
            serve_forever responses version_string static_reply srv
              (history1 ++ [Connection w req])
            = Propagated e sent1
            /\ serve_forever responses version_string static_reply srv
                 (history2 ++ [Connection w req])
               = Propagated e sent2)).
Proof.
  intros Hstart Hsame1 Hsame2 H1 H2.
  destruct (startup_facts.started_server o argv srv Hstart) as (Hflag & Hcls).
  unfold serve_forever in *.
  pose proof (loop_facts.polling_same_server responses version_string
                static_reply srv history1 _ _ _ _ _ Hflag H1) as ->.
  pose proof (loop_facts.polling_same_server responses version_string
                static_reply srv history2 _ _ _ _ _ Hflag H2) as ->.
  split; [reflexivity|]. split; [reflexivity|].
  pose proof (loop_facts.cache_invariant responses version_string
                static_reply srv (mime_types w) history1 Hflag Hsame1
                None [] srv db1 sent1 (or_introl eq_refl) H1) as Hdb1.
  pose proof (loop_facts.cache_invariant responses version_string
                static_reply srv (mime_types w) history2 Hflag Hsame2
                None [] srv db2 sent2 (or_introl eq_refl) H2) as Hdb2.
  rewrite !fold_left_app, H1, H2. cbn [fold_left].
  rewrite (loop_facts.last_connection responses version_string static_reply
             srv db1 sent1 w req Hflag Hdb1).
  rewrite (loop_facts.last_connection responses version_string static_reply
             srv db2 sent2 w req Hflag Hdb2).
  rewrite Hcls.
  destruct (handle_one_request responses version_string static_reply
              Handler.class w req) as [h|e].
  - left. exists [wire h]. do 2 eexists.
    split; [reflexivity|]. split; [reflexivity|].
    intros self_h H. injection H as <-. reflexivity.
  - destruct (is_Exception e); [destruct (stderr_error w) as [e'|]|].
    + right. exists e'. split; reflexivity.
    + left. exists []. do 2 eexists. rewrite !app_nil_r.
      split; [reflexivity|]. split; [reflexivity|]. discriminate.
    + right. exists e. split; reflexivity.
Qed.

Lemma C8_witness :
  exists db2 sent2,
    serve_forever fixtures.responses fixtures.version_string
      fixtures.static_reply fixtures.httpd9000 fixtures.morning
    = Polling fixtures.httpd9000 db2 sent2
    /\ (fixtures.httpd9000 = fixtures.httpd9000
        /\ fixtures.httpd9000 = fixtures.httpd9000
        /\ ((exists out db1' db2',
               serve_forever fixtures.responses fixtures.version_string
                 fixtures.static_reply fixtures.httpd9000
                 ([] ++ [Connection fixtures.noon
                           (fixtures.get "/player.wasm")])
               = Polling fixtures.httpd9000 db1' ([] ++ out)
               /\ serve_forever fixtures.responses fixtures.version_string
                    fixtures.static_reply fixtures.httpd9000
                    (fixtures.morning
                       ++ [Connection fixtures.noon
                             (fixtures.get "/player.wasm")])
                  = Polling fixtures.httpd9000 db2' (sent2 ++ out)
               /\ forall self_h,
                    handle_one_request fixtures.responses
                      fixtures.version_string fixtures.static_reply
                      Handler.class fixtures.noon
                      (fixtures.get "/player.wasm") = Ok self_h ->
                    out = [wire self_h])
            \/ (exists e,
                  serve_forever fixtures.responses fixtures.version_string
                    fixtures.static_reply fixtures.httpd9000
                    ([] ++ [Connection fixtures.noon
                              (fixtures.get "/player.wasm")])
                  = Propagated e []
                  /\ serve_forever fixtures.responses
                       fixtures.version_string fixtures.static_reply
                       fixtures.httpd9000
                       (fixtures.morning
                          ++ [Connection fixtures.noon
                                (fixtures.get "/player.wasm")])
                     = Propagated e sent2))).
Proof.
    do 2 eexists. split; [reflexivity|].
  eapply (C8_reply_independent_of_history fixtures.responses
           fixtures.version_string fixtures.static_reply fixtures.os
           ["serve.py"; "9000"] fixtures.httpd9000 [] fixtures.morning
           fixtures.noon (fixtures.get "/player.wasm")
           fixtures.httpd9000 fixtures.httpd9000 None).
  - reflexivity.
  - intros w' req' [].
  - intros w' req' H. cbn in H.
    repeat match goal with
      | H : _ \/ _ |- _ => destruct H as [H|H]
      end;
      try discriminate H; try contradiction;
      injection H as <- _; reflexivity.
  - reflexivity.
  - reflexivity.
Defined.

(** C9, as stated: the line names the bound port.  It fails when the
    argument is ["0"]: the system binds a port of its choice and the line
    still says 0. *)
Lemma C9_port_zero_announced :
  exists srv,
    httpd (main fixtures.os ["serve.py"; "0"]) = Ok srv
    /\ socket.lport (sock srv) = 49152
    /\ stdout (main fixtures.os ["serve.py"; "0"])
       = "Serving on http://localhost:0" ++ String LF ""
    /\ stdout (main fixtures.os ["serve.py"; "0"])
       <> "Serving on http://localhost:"
            ++ builtins.str (socket.lport (sock srv)) ++ String LF "".
Proof.
  eexists. split; [reflexivity|]. split; [reflexivity|].
  split; [reflexivity|]. vm_compute. discriminate.
Qed.

(** C9, amended.  On successful start-up standard output holds exactly one
    line, [Serving on http://localhost:<port>], where <port> is the decimal
    form of [PORT], the port number asked for (the argument, or 8080).  That
    is the bound port whenever it is not 0. *)
Theorem C9_announcement (o : socket.os) (argv : list string) (port : Z)
    (srv : TCPServer) :
  PORT argv = Ok port ->
  httpd (main o argv) = Ok srv ->
  stdout (main o argv)
  = "Serving on http://localhost:" ++ builtins.str port ++ String LF ""
  /\ decimal.count_char LF (stdout (main o argv)) = 1%nat
  /\ (port <> 0 -> socket.lport (sock srv) = port).
Proof.
  intros HP Hstart.
  rewrite (startup_facts.main_stdout o argv port srv HP Hstart).
  split; [reflexivity|]. split.
  - rewrite !builtins_facts.count_char_app, builtins_facts.count_LF_str.
    reflexivity.
  - rewrite (startup_facts.main_httpd o argv port HP) in Hstart.
    apply (startup_facts.init_ok o _ port srv Hstart).
Qed.

Lemma C9_witness :
  stdout (main fixtures.os ["serve.py"; "9000"])
  = "Serving on http://localhost:" ++ builtins.str 9000 ++ String LF ""
  /\ decimal.count_char LF (stdout (main fixtures.os ["serve.py"; "9000"]))
     = 1%nat
  /\ (9000 <> 0 -> socket.lport (sock fixtures.httpd9000) = 9000).
Proof.
  apply (C9_announcement fixtures.os ["serve.py"; "9000"] 9000
           fixtures.httpd9000); reflexivity.
Defined.

(** C10.  The listener of a started server is bound to the wildcard
    address, not to the loopback address: a connection addressed to any
    IPv4 address of the host reaches it (the socket is an IPv4 one and takes
    no IPv6 destination), where a listener bound to 127.0.0.1 takes that
    one destination only; the announcement names [localhost]. *)
Theorem C10_listens_on_every_interface (o : socket.os) (argv : list string)
    (srv : TCPServer) :
  httpd (main o argv) = Ok srv ->
  socket.laddr (sock srv) = socket.host_address ""
  /\ socket.laddr (sock srv) = socket.INADDR_ANY
  /\ socket.laddr (sock srv) <> socket.host_address "localhost"
  /\ socket.laddr (sock srv) <> socket.host_address "127.0.0.1"
  /\ (forall a, socket.accepts (sock srv) (socket.IPv4 a) = true)
  /\ (forall a, socket.accepts (sock srv) (socket.IPv6 a) = false)
  /\ (forall l a,
        socket.laddr l = socket.host_address "127.0.0.1" ->
        (socket.accepts l (socket.IPv4 a) = true <-> a = "127.0.0.1"))
  /\ exists port,
       stdout (main o argv)
       = "Serving on http://localhost:" ++ builtins.str port ++ String LF "".
Proof.
  intros Hstart.
  destruct (PORT argv) as [port|e] eqn:HP.
  - pose proof (startup_facts.main_stdout o argv port srv HP Hstart) as Hout.
    rewrite (startup_facts.main_httpd o argv port HP) in Hstart.
    destruct (startup_facts.init_ok o _ port srv Hstart) as (Ha & _).
    unfold socket.accepts. rewrite Ha.
    split; [reflexivity|]. split; [reflexivity|].
    split; [discriminate|]. split; [discriminate|].
    split; [reflexivity|]. split; [reflexivity|].
    split; [|eauto].
    intros l a ->. cbn [socket.host_address].
    rewrite String.eqb_eq. split; congruence.
  - unfold main in Hstart. rewrite HP in Hstart. discriminate.
Qed.

Lemma C10_witness :
  socket.laddr (sock fixtures.httpd9000) = socket.host_address ""
  /\ socket.laddr (sock fixtures.httpd9000) = socket.INADDR_ANY
  /\ socket.laddr (sock fixtures.httpd9000) <> socket.host_address "localhost"
  /\ socket.laddr (sock fixtures.httpd9000) <> socket.host_address "127.0.0.1"
  /\ (forall a,
        socket.accepts (sock fixtures.httpd9000) (socket.IPv4 a) = true)
  /\ (forall a,
        socket.accepts (sock fixtures.httpd9000) (socket.IPv6 a) = false)
  /\ (forall l a,
        socket.laddr l = socket.host_address "127.0.0.1" ->
        (socket.accepts l (socket.IPv4 a) = true <-> a = "127.0.0.1"))
  /\ exists port,
       stdout (main fixtures.os ["serve.py"; "9000"])
       = "Serving on http://localhost:" ++ builtins.str port ++ String LF "".
Proof.
  apply (C10_listens_on_every_interface fixtures.os ["serve.py"; "9000"]
           fixtures.httpd9000).
  reflexivity.
Defined.

(** * Further properties of the script *)

(** ** More on the header methods *)

Module header_more.
Import BaseHTTPRequestHandler SimpleHTTPRequestHandler handler_facts.

Lemma string_length_app (s t : string) :
  String.length (s ++ t) = (String.length s + String.length t)%nat.
Proof. induction s as [|c s IH]; cbn [append String.length Nat.add]; congruence. Qed.

Lemma is_http09_send_response responses version_string self date code message :
  is_http09 (send_response responses version_string self date code message)
  = is_http09 self.
Proof.
  unfold send_response. rewrite !is_http09_send_header.
  unfold send_response_only. destruct (is_http09 self) eqn:E; cbn [negb].
  - exact E.
  - rewrite is_http09_buffer_append. exact E.
Qed.

(** The handler at the time of [self.end_headers()] speaks the version of
    the request. *)
Lemma is_http09_before_end_headers responses version_string date code message
    hs req :
  is_http09
    (send_headers
       (send_response responses version_string (setup req) date code message)
       hs)
  = String.eqb (version req) "HTTP/0.9".
Proof.
  set (h1 := send_response _ _ _ _ _ _).
  assert (Hb : buffered h1).
  { unfold h1, send_response. apply buffered_send_header. }
  destruct (send_headers_invariant hs h1 Hb) as (_ & H9 & _).
  rewrite H9. unfold h1. rewrite is_http09_send_response. reflexivity.
Qed.

(** The inherited [end_headers] changes nothing under HTTP/0.9. *)
Lemma end_headers_http09 self :
  is_http09 self = true -> end_headers self = Ok self.
Proof. intros H. unfold end_headers. rewrite H. reflexivity. Qed.

End header_more.

(** X1.  Whatever the request, the files and the clock: when the library
    handler answers, the reply of [Handler] is that reply with the two
    policy lines, each ended by CRLF, in front of it (the library's bytes
    follow unchanged, and the reply is 85 bytes longer); when the library
    handler raises, before any byte is sent, [Handler] raises the same
    exception. *)
Theorem X1_reply_is_library_reply_after_policy_lines
    (responses : Z -> option string) (version_string : string)
    (static_reply : file_system -> request -> reply)
    (w : world) (req : request) :
  match handle_one_request responses version_string static_reply
          SimpleHTTPRequestHandler.class w req with
  | Ok self_b =>
      exists self_h,
        handle_one_request responses version_string static_reply
          Handler.class w req = Ok self_h
        /\ wire self_h
           = (Handler.COOP ++ CRLF) ++ (Handler.COEP ++ CRLF) ++ wire self_b
        /\ String.length (wire self_h) = (85 + String.length (wire self_b))%nat
  | Raise e =>
      handle_one_request responses version_string static_reply
        Handler.class w req = Raise e
  end.
Proof.
  generalize (reply_facts.handler_reply responses version_string static_reply
                w req).
  destruct (handle_one_request responses version_string static_reply
              SimpleHTTPRequestHandler.class w req) as [self_b|e]; [|trivial].
  intros (self_h & Hh & Hw).
  exists self_h. split; [exact Hh|]. split; [exact Hw|].
  rewrite Hw, !header_more.string_length_app. reflexivity.
Qed.

(** X2.  What a client reads from a reply of [Handler], whenever the
    library handler answers: the opener-policy line where the status line
    belongs, then the embedder-policy line as first header field, then the
    whole head of the library's reply, its status line included, as further
    header fields.  When the library handler raises there is nothing to
    read. *)
Theorem X2_client_reads_policy_line_first
    (responses : Z -> option string) (version_string : string)
    (static_reply : file_system -> request -> reply)
    (w : world) (req : request) :
  match handle_one_request responses version_string static_reply
          SimpleHTTPRequestHandler.class w req with
  | Ok self_b =>
      exists self_h,
        handle_one_request responses version_string static_reply
          Handler.class w req = Ok self_h
        /\ http_message.status_line (wire self_h) = Handler.COOP
        /\ http_message.header_fields (wire self_h)
           = Handler.COEP
               :: http_message.until_blank
                    (http_message.split_lines (wire self_b))
  | Raise e =>
      handle_one_request responses version_string static_reply
        Handler.class w req = Raise e
  end.
Proof.
  generalize (reply_facts.handler_reply responses version_string static_reply
                w req).
  destruct (handle_one_request responses version_string static_reply
              SimpleHTTPRequestHandler.class w req) as [self_b|e]; [|trivial].
  intros (self_h & Hh & Hw).
  exists self_h. split; [exact Hh|].
  rewrite Hw. generalize (wire self_b) as rest. intros rest.
  unfold http_message.status_line, http_message.header_fields.
  split; reflexivity.
Qed.

(** X3.  For a request without a version (HTTP/0.9) whose file lookup
    answers, standard error being usable, the library sends the body alone,
    with no status line and no headers; [Handler] still writes the two
    policy lines, so the client receives them in front of the body with no
    blank line between. *)
Theorem X3_http09_reply_starts_with_policy_lines
    (responses : Z -> option string) (version_string : string)
    (static_reply : file_system -> request -> reply)
    (w : world) (req : request) (a : answer) :
  version req = "HTTP/0.9" ->
  outcome (static_reply (files w) req) = Ok a ->
  stderr_error w = None ->
  exists self_b self_h,
    handle_one_request responses version_string static_reply
      SimpleHTTPRequestHandler.class w req = Ok self_b
    /\ handle_one_request responses version_string static_reply
         Handler.class w req = Ok self_h
    /\ wire self_b = body a
    /\ wire self_h
       = (Handler.COOP ++ CRLF) ++ (Handler.COEP ++ CRLF) ++ body a.
Proof.
  intros H09 Hout Herr.
  assert (Hb : exists self_b,
             handle_one_request responses version_string static_reply
               SimpleHTTPRequestHandler.class w req = Ok self_b
             /\ wire self_b = body a).
  { unfold handle_one_request, log_message.
    set (r := static_reply (files w) req) in *.
    rewrite Hout, Herr. cbn [bind].
    destruct (handler_facts.before_end_headers responses version_string
                (date_time_string w) (code a) (message a)
                (content_type (mime_types w) r a ++ headers a)%list req)
      as (Hw0 & _).
    pose proof (header_more.is_http09_before_end_headers responses
                  version_string (date_time_string w) (code a) (message a)
                  (content_type (mime_types w) r a ++ headers a)%list req)
      as H9.
    rewrite H09 in H9. change (String.eqb "HTTP/0.9" "HTTP/0.9") with true in H9.
    set (self := send_headers _ _) in *.
    cbn [end_headers_of SimpleHTTPRequestHandler.class].
    rewrite (header_more.end_headers_http09 self H9). cbn [bind].
    eexists. split; [reflexivity|]. unfold wire.
    destruct (body a) as [|c b] eqn:E.
    - rewrite Hw0. reflexivity.
    - cbn [wfile wfile_write]. rewrite Hw0. cbn [app].
      rewrite join_cons. apply append_nil_r. }
  destruct Hb as (self_b & Hb & Hwb).
  destruct (reply_facts.handler_reply_ok responses version_string
              static_reply w req self_b Hb) as (self_h & Hh & Hw).
  exists self_b, self_h. split; [exact Hb|]. split; [exact Hh|].
  split; [exact Hwb|]. rewrite Hw, Hwb. reflexivity.
Qed.

Lemma X3_witness :
  exists self_b self_h,
    handle_one_request fixtures.responses fixtures.version_string
      fixtures.static_reply SimpleHTTPRequestHandler.class fixtures.noon
      (observations.get09 "/player.wasm") = Ok self_b
    /\ handle_one_request fixtures.responses fixtures.version_string
         fixtures.static_reply Handler.class fixtures.noon
         (observations.get09 "/player.wasm") = Ok self_h
    /\ wire self_b = "wasm"
    /\ wire self_h
       = (Handler.COOP ++ CRLF) ++ (Handler.COEP ++ CRLF) ++ "wasm".
Proof.
  apply (X3_http09_reply_starts_with_policy_lines fixtures.responses
           fixtures.version_string fixtures.static_reply fixtures.noon
           (observations.get09 "/player.wasm")
           {| code := 200; message := None; guessed_ctype := true;
              headers := [("Content-Length", "4")]; body := "wasm" |});
    reflexivity.
Defined.

(** X4.  Apart from its two writes the override behaves as the inherited
    method: it raises exactly when the inherited method raises, which is
    when no header was ever buffered outside HTTP/0.9, and when both return
    they leave the same versions, the same (emptied) header buffer and the
    same [close_connection]. *)
Theorem X4_override_differs_only_in_writes (self : handler) :
  (forall e, Handler.end_headers self = Raise e
             <-> BaseHTTPRequestHandler.end_headers self = Raise e)
  /\ (BaseHTTPRequestHandler.end_headers self = Raise AttributeError
      <-> is_http09 self = false /\ _headers_buffer self = None)
  /\ (forall self_b self_h,
        BaseHTTPRequestHandler.end_headers self = Ok self_b ->
        Handler.end_headers self = Ok self_h ->
        request_version self_h = request_version self_b
        /\ protocol_version self_h = protocol_version self_b
        /\ _headers_buffer self_h = _headers_buffer self_b
        /\ close_connection self_h = close_connection self_b).
Proof.
  unfold Handler.end_headers, end_headers.
  change (is_http09 (wfile_write (wfile_write self (Handler.COOP ++ CRLF))
                       (Handler.COEP ++ CRLF))) with (is_http09 self).
  cbn [_headers_buffer wfile_write].
  destruct (is_http09 self); cbn [negb];
    [|destruct (_headers_buffer self) as [buf|]].
  - split; [intros e; split; discriminate|].
    split; [split; [discriminate|intros [H _]; discriminate]|].
    intros self_b self_h Hb Hh. injection Hb as <-. injection Hh as <-.
    repeat split.
  - split; [intros e; split; discriminate|].
    split; [split; [discriminate|intros [_ H]; discriminate]|].
    intros self_b self_h Hb Hh. injection Hb as <-. injection Hh as <-.
    repeat split.
  - split; [intros e; split; auto|].
    split; [split; auto|]. discriminate.
Qed.

(** X5.  The policy lines are written at every call: a handler that
    finalizes headers twice on one connection (an interim reply, then the
    final one) puts the pair on the wire twice, the second time in front of
    a bare blank line. *)
Theorem X5_end_headers_twice (self : handler) (buf : list string) :
  is_http09 self = false ->
  _headers_buffer self = Some buf ->
  exists self1 self2,
    Handler.end_headers self = Ok self1
    /\ Handler.end_headers self1 = Ok self2
    /\ wfile self2
       = (wfile self
            ++ [Handler.COOP ++ CRLF; Handler.COEP ++ CRLF; join buf ++ CRLF;
                Handler.COOP ++ CRLF; Handler.COEP ++ CRLF; CRLF]%string)%list.
Proof.
  intros H9 Hbuf.
  unfold Handler.end_headers at 1. unfold end_headers.
  change (is_http09 (wfile_write (wfile_write self (Handler.COOP ++ CRLF))
                       (Handler.COEP ++ CRLF))) with (is_http09 self).
  rewrite H9. cbn [negb _headers_buffer wfile_write]. rewrite Hbuf.
  eexists. eexists. split; [reflexivity|].
  unfold Handler.end_headers, end_headers, flush_headers, is_http09 in *.
  cbn [request_version _headers_buffer set_headers_buffer wfile wfile_write].
  rewrite H9. cbn [negb]. split; [reflexivity|].
  cbn [wfile set_headers_buffer wfile_write].
  rewrite join_app, <- !app_assoc. reflexivity.
Qed.

Lemma X5_witness :
  exists self1 self2,
    Handler.end_headers fixtures.ready = Ok self1
    /\ Handler.end_headers self1 = Ok self2
    /\ wfile self2
       = (wfile fixtures.ready
            ++ [Handler.COOP ++ CRLF; Handler.COEP ++ CRLF;
                join ["HTTP/1.0 200 OK" ++ CRLF;
                      "Server: SimpleHTTP/0.6 Python/3.11.2" ++ CRLF;
                      "Date: Tue, 03 Nov 2026 12:00:00 GMT" ++ CRLF] ++ CRLF;
                Handler.COOP ++ CRLF; Handler.COEP ++ CRLF; CRLF]%string)%list.
Proof.
  apply (X5_end_headers_twice fixtures.ready); reflexivity.
Defined.

(** ** More on start-up *)

(** X6.  Only the first argument counts: whatever follows it on the command
    line changes neither [PORT] nor anything else of start-up. *)
Theorem X6_later_arguments_ignored (o : socket.os) (prog s : string)
    (more : list string) :
  PORT (prog :: s :: more) = builtins.int s
  /\ main o (prog :: s :: more) = main o [prog; s].
Proof.
  assert (HP : PORT (prog :: s :: more) = builtins.int s).
  { unfold PORT, builtins.len.
    assert (H : (1 <? Z.of_nat (List.length (prog :: s :: more)))%Z = true)
      by (apply Z.ltb_lt; cbn [List.length]; lia).
    rewrite H. reflexivity. }
  split; [exact HP|].
  unfold main. rewrite HP, startup_facts.PORT_argument. reflexivity.
Qed.

(** X7.  Once the argument is read as the integer [n], the outcome of
    start-up is decided by [n] and the system alone: [OverflowError]
    exactly when [n] is outside 0..65535 (so 65535 is the last port number
    that reaches the system and 65536 the first that does not),
    [OSError] exactly when the system has no port to give for 0 or refuses
    the port asked for, and a server otherwise. *)
Theorem X7_startup_outcome_by_port (o : socket.os) (prog s : string) (n : Z) :
  builtins.int s = Ok n ->
  (httpd (main o [prog; s]) = Raise OverflowError <-> n < 0 \/ 65535 < n)
  /\ (httpd (main o [prog; s]) = Raise OSError
      <-> (n = 0 /\ socket.ephemeral_port o = None)
          \/ (1 <= n <= 65535 /\ socket.port_unavailable o n = true))
  /\ ((exists srv, httpd (main o [prog; s]) = Ok srv)
      <-> (n = 0 /\ socket.ephemeral_port o <> None)
          \/ (1 <= n <= 65535 /\ socket.port_unavailable o n = false)).
Proof.
  intros Hn.
  rewrite (startup_facts.main_httpd o [prog; s] n)
    by (rewrite startup_facts.PORT_argument; exact Hn).
  unfold socketserver.init, socket.bind.
  destruct ((n <? 0) || (65535 <? n))%Z eqn:Erange.
  - assert (n < 0 \/ 65535 < n) by lia.
    split; [tauto|]. split.
    + split; [discriminate|intros [[? _]|[? _]]; lia].
    + split; [intros [srv H']; discriminate|intros [[? _]|[? _]]; lia].
  - assert (0 <= n <= 65535) by lia.
    destruct (n =? 0)%Z eqn:E0.
    + assert (n = 0) by lia.
      destruct (socket.ephemeral_port o) as [p|]; cbn [bind].
      * split; [split; [discriminate|lia]|].
        split; [split; [discriminate|intros [[_ ?]|[? _]]; [discriminate|lia]]|].
        split; [intros _; left; split; [assumption|discriminate]|eauto].
      * split; [split; [discriminate|lia]|].
        split; [split; [intros _; left; auto|reflexivity]|].
        split; [intros [srv H']; discriminate|].
        intros [[_ ?]|[? _]]; [congruence|lia].
    + assert (1 <= n <= 65535) by lia.
      destruct (socket.port_unavailable o n); cbn [bind].
      * split; [split; [discriminate|lia]|].
        split; [split; [intros _; right; auto|reflexivity]|].
        split; [intros [srv H']; discriminate|].
        intros [[? _]|[_ ?]]; [lia|discriminate].
      * split; [split; [discriminate|lia]|].
        split; [split; [discriminate|intros [[? _]|[_ ?]]; [lia|discriminate]]|].
        split; [intros _; right; auto|eauto].
Qed.

Lemma X7_witness :
  (httpd (main fixtures.os ["serve.py"; "65536"]) = Raise OverflowError
   <-> 65536 < 0 \/ 65535 < 65536)
  /\ (httpd (main fixtures.os ["serve.py"; "65536"]) = Raise OSError
      <-> (65536 = 0 /\ socket.ephemeral_port fixtures.os = None)
          \/ (1 <= 65536 <= 65535
              /\ socket.port_unavailable fixtures.os 65536 = true))
  /\ ((exists srv, httpd (main fixtures.os ["serve.py"; "65536"]) = Ok srv)
      <-> (65536 = 0 /\ socket.ephemeral_port fixtures.os <> None)
          \/ (1 <= 65536 <= 65535
              /\ socket.port_unavailable fixtures.os 65536 = false)).
Proof.
  apply (X7_startup_outcome_by_port fixtures.os "serve.py" "65536" 65536).
  reflexivity.
Defined.

(** X8.  Whatever the arguments and the system, a start-up that fails has
    printed nothing, and it fails in one of three ways only: [ValueError]
    from reading the argument, [OverflowError] or [OSError] from binding the
    port that was read.  The announcement is on standard output exactly
    when a server object exists. *)
Theorem X8_failed_startup_is_silent (o : socket.os) (argv : list string) :
  (forall e, httpd (main o argv) = Raise e ->
     stdout (main o argv) = ""
     /\ ((e = ValueError /\ PORT argv = Raise ValueError)
         \/ (exists port, PORT argv = Ok port
                          /\ socket.bind o ("", port) = Raise e
                          /\ (e = OverflowError \/ e = OSError))))
  /\ (stdout (main o argv) <> "" <-> exists srv, httpd (main o argv) = Ok srv).
Proof.
  split.
  - intros e Hfail.
    pose proof (startup_facts.main_failure o argv e Hfail) as Hmain.
    split; [rewrite Hmain; reflexivity|].
    unfold main in Hfail. destruct (PORT argv) as [port|e'] eqn:HP.
    + right. exists port. split; [reflexivity|].
      unfold socketserver.init in Hfail.
      destruct (socket.bind o ("", port)) as [l|e''] eqn:Hb;
        cbn [bind httpd] in Hfail; [discriminate|].
      injection Hfail as ->. split; [reflexivity|].
      unfold socket.bind in Hb.
      destruct ((port <? 0) || (65535 <? port))%Z;
        [injection Hb as <-; auto|].
      destruct (port =? 0)%Z.
      * destruct (socket.ephemeral_port o); [discriminate|].
        injection Hb as <-; auto.
      * destruct (socket.port_unavailable o port); [|discriminate].
        injection Hb as <-; auto.
    + cbn [httpd] in Hfail. injection Hfail as ->. left.
      unfold PORT in HP. destruct (1 <? builtins.len argv)%Z; [|discriminate].
      apply builtins_facts.int_raises in HP as Hv. subst e. auto.
  - unfold main. destruct (PORT argv) as [port|e].
    + destruct (socketserver.init o ("", port) Handler.class) as [srv|e];
        cbn [stdout httpd].
      * split; [eauto|]. intros _. discriminate.
      * split; [congruence|]. intros [srv H]. discriminate.
    + cbn [stdout httpd]. split; [congruence|]. intros [srv H]. discriminate.
Qed.

(** ** More on the serving loop *)

(** X9.  While no turn is disturbed and the system's MIME files stay the
    same, the started server has sent, in arrival order, exactly the
    replies of its connections, each as [Handler] makes it of that
    connection alone (its request, files and clock); a connection whose
    handler raises, poll time-outs, failed accepts and clients that send
    nothing add no byte. *)
Theorem X9_replies_follow_arrival_order
    (responses : Z -> option string) (version_string : string)
    (static_reply : file_system -> request -> reply)
    (o : socket.os) (argv : list string) (srv : TCPServer)
    (arrivals : list arrival) (t : mime_db) :
  httpd (main o argv) = Ok srv ->
  Forall (observations.undisturbed static_reply) arrivals ->
  (forall w req, In (Connection w req) arrivals -> mime_types w = t) ->
  exists db,
    serve_forever responses version_string static_reply srv arrivals
    = Polling srv db
        (observations.replies responses version_string static_reply
           Handler.class arrivals).
Proof.
  intros Hstart Hcalm Hsame.
  destruct (startup_facts.started_server o argv srv Hstart) as (Hflag & Hcls).
  exact (loop_facts.calm_trace responses version_string static_reply srv t
           arrivals Hflag Hcls Hcalm Hsame None [] (or_introl eq_refl)).
Qed.

Lemma X9_witness :
  exists db,
    serve_forever fixtures.responses fixtures.version_string
      fixtures.static_reply fixtures.httpd9000 fixtures.morning
    = Polling fixtures.httpd9000 db
        (observations.replies fixtures.responses fixtures.version_string
           fixtures.static_reply Handler.class fixtures.morning).
Proof.
  apply (X9_replies_follow_arrival_order fixtures.responses
           fixtures.version_string fixtures.static_reply fixtures.os
           ["serve.py"; "9000"] fixtures.httpd9000 fixtures.morning
           fixtures.tables_now).
  - reflexivity.
  - repeat constructor; discriminate.
  - intros w req H. cbn in H.
    repeat match goal with
      | H : _ \/ _ |- _ => destruct H as [H|H]
      end;
      try discriminate H; try contradiction;
      injection H as <- _; reflexivity.
Defined.

(** X10.  An interrupt ends [serve_forever] at once with
    [KeyboardInterrupt], whether it comes while the loop polls or while a
    request is being handled: what was sent to the connections served
    before stays as it is, the connection being handled is not served to
    its end, and nothing that arrives later is served. *)
Theorem X10_nothing_served_after_signal
    (responses : Z -> option string) (version_string : string)
    (static_reply : file_system -> request -> reply)
    (o : socket.os) (argv : list string) (srv srv' : TCPServer)
    (history rest : list arrival) (a : arrival)
    (db : option mime_db) (sent : list string) :
  httpd (main o argv) = Ok srv ->
  serve_forever responses version_string static_reply srv history
  = Polling srv' db sent ->
  a = Signal \/ (exists w req, a = Interrupted w req) ->
  serve_forever responses version_string static_reply srv
    (history ++ a :: rest)
  = Propagated KeyboardInterrupt sent.
Proof.
  intros Hstart Hrun Ha.
  destruct (startup_facts.started_server o argv srv Hstart) as (Hflag & _).
  unfold serve_forever in *.
  pose proof (loop_facts.polling_same_server responses version_string
                static_reply srv history _ _ _ _ _ Hflag Hrun) as ->.
  rewrite fold_left_app, Hrun. cbn [fold_left].
  rewrite (loop_facts.turn responses version_string static_reply
             srv db sent a Hflag).
  destruct Ha as [->|(w & req & ->)];
    apply loop_facts.ended_is_final; discriminate.
Qed.

Lemma X10_witness :
  serve_forever fixtures.responses fixtures.version_string
    fixtures.static_reply fixtures.httpd9000
    ([Connection fixtures.noon (fixtures.get "/missing")]
       ++ Interrupted fixtures.noon (fixtures.get "/player.wasm")
       :: [Connection fixtures.later (fixtures.get "/player.wasm")])
  = Propagated KeyboardInterrupt
      (observations.reply_bytes fixtures.responses fixtures.version_string
         fixtures.static_reply Handler.class fixtures.noon
         (fixtures.get "/missing")).
Proof.
  apply (X10_nothing_served_after_signal fixtures.responses
           fixtures.version_string fixtures.static_reply fixtures.os
           ["serve.py"; "9000"] fixtures.httpd9000 fixtures.httpd9000
           [Connection fixtures.noon (fixtures.get "/missing")]
           [Connection fixtures.later (fixtures.get "/player.wasm")]
           (Interrupted fixtures.noon (fixtures.get "/player.wasm"))
           (Some fixtures.tables_now)).
  - reflexivity.
  - reflexivity.
  - right. eexists. eexists. reflexivity.
Defined.

(** ** More on the port argument *)

Module argument_facts.
Import builtins decimal observations.

Ltac ascii_cases c := destruct c as [[] [] [] [] [] [] [] []].

(** [int_literal] with its character tests written as tests. *)
Lemma int_literal_eq (s : string) :
  int_literal s
  = let s1 := skip_spaces s in
    let p :=
      match s1 with
      | String a r =>
          if Ascii.eqb a "+" then (1, r)
          else if Ascii.eqb a "-" then (-1, r)
          else (1, s1)
      | EmptyString => (1, s1)
      end in
    match snd p with
    | String a _ =>
        if is_underscore a then None else literal_tail (fst p) (snd p)
    | EmptyString => None
    end.
Proof.
  unfold int_literal. cbv zeta.
  destruct (skip_spaces s) as [|a r]; [reflexivity|].
  ascii_cases a; try reflexivity;
    (destruct r as [|a' r']; [reflexivity|ascii_cases a'; reflexivity]).
Qed.

(** A character of one class is of no other. *)
Lemma digit_is_only_digit (c : ascii) (v : Z) :
  digit_value c = Some v ->
  is_space c = false /\ is_underscore c = false
  /\ Ascii.eqb c "+" = false /\ Ascii.eqb c "-" = false.
Proof.
  ascii_cases c; intros H; cbv in H; try discriminate H;
    repeat split; reflexivity.
Qed.

Lemma blank_is_only_blank (c : ascii) :
  is_space c = true -> is_underscore c = false /\ digit_value c = None.
Proof.
  ascii_cases c; intros H; cbv in H; try discriminate H; split; reflexivity.
Qed.

Lemma literal_char_false (c : ascii) :
  literal_char c = false ->
  is_space c = false /\ is_underscore c = false /\ digit_value c = None
  /\ Ascii.eqb c "+" = false /\ Ascii.eqb c "-" = false.
Proof.
  unfold literal_char. intros H.
  destruct (is_space c); [discriminate|].
  destruct (is_underscore c); [discriminate|].
  destruct (digit_value c); [discriminate|].
  destruct (Ascii.eqb c "+"); [discriminate|].
  destruct (Ascii.eqb c "-"); [discriminate|].
  repeat split.
Qed.

(** Blanks. *)
Lemma skip_spaces_blank_app (lead s : string) :
  all_blank lead = true -> skip_spaces (lead ++ s) = skip_spaces s.
Proof.
  induction lead as [|c lead IH]; cbn [all_blank append skip_spaces];
    [reflexivity|].
  intros H. apply andb_prop in H as [Hc Hl]. rewrite Hc. exact (IH Hl).
Qed.

Lemma skip_spaces_all_blank (s : string) :
  all_blank s = true -> skip_spaces s = "".
Proof.
  intros H. rewrite <- (append_nil_r s), skip_spaces_blank_app by exact H.
  reflexivity.
Qed.

Lemma scan_digits_blank (t : string) (acc : Z) (n : nat) :
  all_blank t = true -> scan_digits false acc n t = Some (acc, n, t).
Proof.
  destruct t as [|c t]; [reflexivity|]. cbn [all_blank scan_digits].
  intros H. apply andb_prop in H as [Hc _].
  destruct (blank_is_only_blank c Hc) as (Hu & Hd). rewrite Hu, Hd.
  reflexivity.
Qed.

(** Digits followed by more text. *)
Lemma scan_digits_zeros (k : nat) (s : string) (n : nat) :
  scan_digits false 0 n (zeros k ++ s) = scan_digits false 0 (n + k) s.
Proof.
  revert n. induction k as [|k IH]; intros n; cbn [zeros append].
  - rewrite Nat.add_0_r. reflexivity.
  - erewrite builtins_facts.scan_digits_digit by reflexivity.
    change (10 * 0 + 0) with 0. rewrite IH. f_equal. lia.
Qed.

Lemma scan_digits_uint_app (d : Decimal.uint) (rest : string) :
  forall acc n,
    scan_digits false acc n (NilEmpty.string_of_uint d ++ rest)
    = scan_digits false (uint_fold acc d) (n + Decimal.nb_digits d) rest.
Proof.
  induction d; intros acc n;
    cbn [NilEmpty.string_of_uint uint_fold Decimal.nb_digits append];
    try (erewrite builtins_facts.scan_digits_digit by reflexivity;
         rewrite IHd; f_equal; lia).
  rewrite Nat.add_0_r. reflexivity.
Qed.

(** The decimal form of a number that is not negative is a digit
    sequence. *)
Lemma str_nonneg (P : Z) :
  0 <= P ->
  exists d, d <> Decimal.Nil
            /\ str P = NilEmpty.string_of_uint d
            /\ Z.of_N (Pos.of_uint d) = P.
Proof.
  intros HP. unfold str. destruct P as [|p|p]; [| |lia].
  - exists (Decimal.D0 Decimal.Nil). repeat split. discriminate.
  - exists (Pos.to_uint p).
    pose proof (DecimalPos.Unsigned.to_uint_nonnil p) as Hnil.
    split; [exact Hnil|]. split.
    + cbn [Z.to_int NilZero.string_of_int]. unfold NilZero.string_of_uint.
      destruct (Pos.to_uint p); [congruence|reflexivity..].
    + rewrite DecimalPos.Unsigned.of_to. reflexivity.
Qed.

Lemma uint_head (d : Decimal.uint) (rest : string) :
  d <> Decimal.Nil ->
  exists c r v,
    NilEmpty.string_of_uint d ++ rest = String c r
    /\ digit_value c = Some v
    /\ exists m, Decimal.nb_digits d = S m.
Proof.
  intros Hd. destruct d; [congruence|..];
    cbn [NilEmpty.string_of_uint append Decimal.nb_digits];
    eexists _, _, _; (split; [reflexivity|]); (split; [reflexivity|]);
    eexists; reflexivity.
Qed.

(** Zeros, digits and blanks after an optional plus sign read as the
    number. *)
Lemma literal_tail_digits (k : nat) (d : Decimal.uint) (trail : string) :
  d <> Decimal.Nil ->
  all_blank trail = true ->
  Z.of_nat (k + Decimal.nb_digits d) <= int_max_str_digits ->
  literal_tail 1 (zeros k ++ NilEmpty.string_of_uint d ++ trail)
  = Some (Z.of_N (Pos.of_uint d)).
Proof.
  intros Hd Ht Hn. unfold literal_tail.
  rewrite scan_digits_zeros, scan_digits_uint_app,
    builtins_facts.uint_fold_0, scan_digits_blank by exact Ht.
  destruct (uint_head d "" Hd) as (_ & _ & _ & _ & _ & m & Hm).
  rewrite Hm in *. cbn [Nat.add]. rewrite Nat.add_succ_r in *.
  replace (int_max_str_digits <? Z.of_nat (S (k + m)))%Z with false
    by (symmetry; apply Z.ltb_ge; exact Hn).
  rewrite (skip_spaces_all_blank trail Ht).
  f_equal. lia.
Qed.

Lemma digits_head (k : nat) (d : Decimal.uint) (trail : string) :
  d <> Decimal.Nil ->
  exists c r v,
    zeros k ++ NilEmpty.string_of_uint d ++ trail = String c r
    /\ digit_value c = Some v.
Proof.
  intros Hd. destruct k as [|k]; cbn [zeros append].
  - destruct (uint_head d trail Hd) as (c & r & v & H1 & H2 & _). eauto.
  - eexists _, _, _. split; reflexivity.
Qed.

Lemma int_literal_lenient (lead trail : string) (plus : bool) (k : nat)
    (P : Z) :
    all_blank lead = true ->
  all_blank trail = true ->
  0 <= P ->
  Z.of_nat (k + String.length (str P)) <= int_max_str_digits ->
  int_literal
    (lead ++ (if plus then "+" else "") ++ zeros k ++ str P ++ trail)
  = Some P.
Proof.
  intros Hl Ht HP Hn.
  destruct (str_nonneg P HP) as (d & Hd & Hstr & Hval).
  rewrite Hstr, builtins_facts.string_length_uint in Hn.
  rewrite Hstr, int_literal_eq. cbv zeta.
  rewrite skip_spaces_blank_app by exact Hl.
  destruct (digits_head k d trail Hd) as (c & r & v & Hhead & Hc).
  destruct (digit_is_only_digit c v Hc) as (Hs & Hu & Hplus & Hminus).
    pose proof (literal_tail_digits k d trail Hd Ht Hn) as Htail.
  rewrite Hhead in Htail.
  destruct plus; cbn [append]; rewrite Hhead.
  - change (skip_spaces (String "+" (String c r)))
      with (String "+" (String c r)).
    cbv beta iota. rewrite Ascii.eqb_refl.
    cbn [fst snd]. rewrite Hu, Htail, Hval. reflexivity.
  - cbn [skip_spaces]. rewrite Hs. cbv beta iota. rewrite Hplus, Hminus.
    cbn [fst snd]. rewrite Hu, Htail, Hval. reflexivity.
Qed.

(** Occurrences survive what [int_literal] strips. *)
Lemma occurs_skip_spaces (c : ascii) (s : string) :
  is_space c = false -> occurs c s -> occurs c (skip_spaces s).
Proof.
  intros Hc. unfold occurs.
  induction s as [|a s IH]; cbn [skip_spaces list_ascii_of_string];
    [auto|].
  intros [->|H].
  - rewrite Hc. left. reflexivity.
  - destruct (is_space a); [exact (IH H)|right; exact H].
Qed.

Lemma occurs_scan_digits (c : ascii) (s : string) :
  digit_value c = None -> is_underscore c = false ->
  forall prev_us acc n v m rest,
    scan_digits prev_us acc n s = Some (v, m, rest) ->
    occurs c s -> occurs c rest.
Proof.
  intros Hd Hu. unfold occurs.
  induction s as [|a s IH]; intros prev_us acc n v m rest;
    cbn [scan_digits list_ascii_of_string].
  - intros _ [].
  - destruct (is_underscore a) eqn:Ea.
    + destruct prev_us; [discriminate|].
      intros Hscan [->|H]; [congruence|exact (IH _ _ _ _ _ _ Hscan H)].
    + destruct (digit_value a) eqn:Da.
      * intros Hscan [->|H]; [congruence|exact (IH _ _ _ _ _ _ Hscan H)].
      * destruct prev_us; [discriminate|].
        intros Hscan. injection Hscan as _ _ <-. auto.
Qed.

Lemma int_literal_stray (c : ascii) (s : string) :
  occurs c s -> literal_char c = false -> int_literal s = None.
Proof.
  intros Hocc Hlit.
  destruct (literal_char_false c Hlit) as (Hs & Hu & Hd & Hplus & Hminus).
  apply (occurs_skip_spaces c s Hs) in Hocc.
  rewrite int_literal_eq. cbv zeta.
  destruct (skip_spaces s) as [|a r]; [destruct Hocc|].
  assert (Hsnd : forall sign s2, occurs c s2 ->
            match s2 with
            | String a' _ =>
                if is_underscore a' then None else literal_tail sign s2
            | EmptyString => None
            end = None).
  { intros sign s2 H2. destruct s2 as [|a' r']; [reflexivity|].
    destruct (is_underscore a'); [reflexivity|].
    unfold literal_tail.
    destruct (scan_digits false 0 0 (String a' r')) as [[[v m] rest]|] eqn:E;
      [|reflexivity].
        destruct m; [reflexivity|].
    destruct (int_max_str_digits <? Z.of_nat (S m))%Z; [reflexivity|].
    pose proof (occurs_scan_digits c _ Hd Hu _ _ _ _ _ _ E H2) as Hrest.
    apply (occurs_skip_spaces c rest Hs) in Hrest.
    destruct (skip_spaces rest); [destruct Hrest|reflexivity]. }
  assert (Hr : c <> a -> occurs c r).
  { intros Hne. destruct Hocc as [H|H]; [congruence|exact H]. }
  cbv beta iota.
  destruct (Ascii.eqb a "+") eqn:Ep;
    [|destruct (Ascii.eqb a "-") eqn:Em]; cbn [fst snd].
  - apply (Hsnd 1 r), Hr. intros ->. congruence.
  - apply (Hsnd (-1) r), Hr. intros ->. congruence.
  - exact (Hsnd 1 (String a r) Hocc).
Qed.

(** The no-break space and the next-line control are blanks to [int]; the
    separators U+001C to U+001F, blanks to [str.isspace], are not. *)
Lemma latin1_blanks :
  int (String "160" "9002") = Ok 9002
  /\ int (String "133" "9002") = Ok 9002
  /\ int (String "028" "9002") = Raise ValueError.
Proof. repeat split. Qed.

Lemma int_literal_blank (s : string) :
  all_blank s = true -> int_literal s = None.
Proof.
  intros H. rewrite int_literal_eq. cbv zeta.
  rewrite (skip_spaces_all_blank s H). reflexivity.
Qed.

End argument_facts.

(** X11.  Blanks around the number, a plus sign and leading zeros in front
    of it change nothing, as long as zeros and digits together are no more
    than the 4300 that [int] accepts: for a port P that is not negative,
    every such spelling is read as P and start-up is, announcement included,
    that of the plain decimal form of P. *)
Theorem X11_lenient_port_spelling (o : socket.os) (prog lead trail : string)
    (plus : bool) (k : nat) (P : Z) :
  observations.all_blank lead = true ->
  observations.all_blank trail = true ->
  0 <= P ->
  Z.of_nat (k + String.length (builtins.str P))
  <= builtins.int_max_str_digits ->
  let s :=
    lead ++ (if plus then "+" else "") ++ observations.zeros k
      ++ builtins.str P ++ trail in
  PORT [prog; s] = Ok P
  /\ main o [prog; s] = main o [prog; builtins.str P].
Proof.
  intros Hl Ht HP Hn s.
  assert (Hs : PORT [prog; s] = Ok P).
  { rewrite startup_facts.PORT_argument. unfold builtins.int, s.
    rewrite (argument_facts.int_literal_lenient lead trail plus k P
               Hl Ht HP Hn).
    reflexivity. }
  assert (Hplain : PORT [prog; builtins.str P] = Ok P).
  { rewrite startup_facts.PORT_argument. unfold builtins.int.
        assert (H0 : Z.of_nat (0 + String.length (builtins.str P))
                 <= builtins.int_max_str_digits) by (cbn [Nat.add]; lia).
    pose proof (argument_facts.int_literal_lenient "" "" false 0 P
                  eq_refl eq_refl HP H0) as H.
    cbn [append observations.zeros] in H. rewrite append_nil_r in H.
    rewrite H. reflexivity. }
  split; [exact Hs|].
  unfold main. rewrite Hs, Hplain. reflexivity.
Qed.

Lemma X11_witness :
  let s :=
    " " ++ (if true then "+" else "") ++ observations.zeros 2
      ++ builtins.str 9000 ++ " " in
  PORT ["serve.py"; s] = Ok 9000
  /\ main fixtures.os ["serve.py"; s]
     = main fixtures.os ["serve.py"; builtins.str 9000].
Proof.
  apply (X11_lenient_port_spelling fixtures.os "serve.py" " " " " true 2 9000);
    [reflexivity|reflexivity|lia|vm_compute; discriminate].
Defined.

(** X12.  An argument in which any character occurs that is not a digit, a
    blank (the no-break space and the next-line control are blanks), an
    underscore or a sign, such as a letter, a decimal point or a hexadecimal
    prefix, ends start-up with [ValueError]: nothing is printed and no
    listener exists. *)
Theorem X12_stray_character_fails_startup (o : socket.os) (prog s : string)
    (c : ascii) :
  observations.occurs c s ->
  observations.literal_char c = false ->
  main o [prog; s] = {| stdout := ""; httpd := Raise ValueError |}.
Proof.
  intros Hocc Hlit. unfold main.
  rewrite startup_facts.PORT_argument. unfold builtins.int.
  rewrite (argument_facts.int_literal_stray c s Hocc Hlit). reflexivity.
Qed.

Lemma X12_witness :
  main fixtures.os ["serve.py"; "8080x"]
  = {| stdout := ""; httpd := Raise ValueError |}.
Proof.
  apply (X12_stray_character_fails_startup fixtures.os "serve.py" "8080x"
           "x"%char).
  - cbn. tauto.
  - reflexivity.
Defined.

(** X13.  An argument that is empty or made of blanks only is not taken for
    a missing argument: start-up ends with [ValueError] instead of using
    port 8080. *)
Theorem X13_blank_argument_fails_startup (o : socket.os) (prog s : string) :
  observations.all_blank s = true ->
  PORT [prog; s] = Raise ValueError
  /\ PORT [prog; s] <> PORT [prog]
  /\ main o [prog; s] = {| stdout := ""; httpd := Raise ValueError |}.
Proof.
  intros Hb.
  assert (HP : PORT [prog; s] = Raise ValueError).
  { rewrite startup_facts.PORT_argument. unfold builtins.int.
    rewrite (argument_facts.int_literal_blank s Hb). reflexivity. }
  split; [exact HP|]. split.
  - rewrite HP, startup_facts.PORT_default. discriminate.
  - unfold main. rewrite HP. reflexivity.
Qed.

Lemma X13_witness :
  PORT ["serve.py"; ""] = Raise ValueError
  /\ PORT ["serve.py"; ""] <> PORT ["serve.py"]
  /\ main fixtures.os ["serve.py"; ""]
     = {| stdout := ""; httpd := Raise ValueError |}.
Proof.
  apply (X13_blank_argument_fails_startup fixtures.os "serve.py" "").
  reflexivity.
Defined.
